(** * Somfy thermostat adapter and devolo status adapter

    A shallow embedding of [homeassistant/components/somfy/climate.py] and
    of the entity behaviour exercised by
    [tests/components/devolo_home_control/test_binary_sensor.py].

    The Somfy adapter is a thin layer over the vendor SDK object
    [Thermostat]: every property reads vendor getters, every service method
    ends in at most one vendor command.  The embedding keeps that shape: a
    small state-and-exception monad threads the device, the sequence of
    vendor calls and the log; properties and methods are computations in
    it. *)

From Stdlib Require Import ZArith Floats.SpecFloat.
From stdpp Require Import base decidable option list strings gmap.

#[local] Set Warnings "-clear-no-such-hyp".

Local Open Scope string_scope.
Local Open Scope Z_scope.
Local Open Scope list_scope.

(** ** Python values

    The values the vendor getters hand back and the temperatures the
    platform passes in are [None], an [int] or a [float].  Floats are IEEE
    values, [spec_float] of the Standard Library. *)

Inductive value : Type :=
  | PyNone
  | PyInt (z : Z)
  | PyFloat (f : spec_float).

#[global] Instance spec_float_eq_dec : EqDecision spec_float.
Proof. solve_decision. Defined.

#[global] Instance value_eq_dec : EqDecision value.
Proof. solve_decision. Defined.

(** [bool(v)]: [None], [0], [0.0] and [-0.0] are falsy; everything else,
    NaN included, is truthy. *)
Definition truthy (v : value) : bool :=
  match v with
  | PyNone => false
  | PyInt z => negb (z =? 0)
  | PyFloat (S754_zero _) => false
  | PyFloat _ => true
  end.

(** A value is falsy exactly when it is missing or a zero. *)
Definition zero_or_missing (v : value) : Prop :=
  v = PyNone \/ v = PyInt 0 \/ exists s, v = PyFloat (S754_zero s).

(** [v is None] *)
Definition is_None (v : value) : bool :=
  match v with PyNone => true | _ => false end.

(** Numbers as extended dyadic rationals [m * 2^e]: Python compares an
    [int] with a [float] exactly, without rounding the integer. *)
Inductive number : Type :=
  | NaN
  | Inf (negative : bool)
  | Dyadic (m e : Z).

Definition number_of_float (f : spec_float) : number :=
  match f with
  | S754_zero _ => Dyadic 0 0
  | S754_infinity s => Inf s
  | S754_nan => NaN
  | S754_finite s m e => Dyadic (if s then Z.neg m else Z.pos m) e
  end.

Definition number_of (v : value) : option number :=
  match v with
  | PyNone => None
  | PyInt z => Some (Dyadic z 0)
  | PyFloat f => Some (number_of_float f)
  end.

Definition dyadic_compare (m1 e1 m2 e2 : Z) : comparison :=
  let e := Z.min e1 e2 in
  (m1 * 2 ^ (e1 - e) ?= m2 * 2 ^ (e2 - e)).

(** [None] when the operands are unordered (a NaN is involved). *)
Definition number_compare (a b : number) : option comparison :=
  match a, b with
  | NaN, _ | _, NaN => None
  | Inf s1, Inf s2 =>
      Some (match s1, s2 with
            | true, false => Lt
            | false, true => Gt
            | _, _ => Eq
            end)
  | Inf s, Dyadic _ _ => Some (if s then Lt else Gt)
  | Dyadic _ _, Inf s => Some (if s then Gt else Lt)
  | Dyadic m1 e1, Dyadic m2 e2 => Some (dyadic_compare m1 e1 m2 e2)
  end.

(** ** Exceptions and the adapter monad *)

Inductive exn : Type :=
  | KeyError (key : string)
  | TypeError.

Inductive result (A : Type) : Type :=
  | Ok (a : A)
  | Raise (e : exn).
Arguments Ok {A} a.
Arguments Raise {A} e.

#[global] Instance exn_eq_dec : EqDecision exn.
Proof. solve_decision. Defined.

#[global] Instance result_eq_dec {A} `{EqDecision A} : EqDecision (result A).
Proof. solve_decision. Defined.

(** [a < b] and [a > b] on Python values; ordering [None] against anything
    raises [TypeError]. *)
Definition py_compare (a b : value) : result (option comparison) :=
  match number_of a, number_of b with
  | Some x, Some y => Ok (number_compare x y)
  | _, _ => Raise TypeError
  end.

Definition py_lt (a b : value) : result bool :=
  match py_compare a b with
  | Ok (Some Lt) => Ok true
  | Ok _ => Ok false
  | Raise e => Raise e
  end.

Definition py_gt (a b : value) : result bool :=
  match py_compare a b with
  | Ok (Some Gt) => Ok true
  | Ok _ => Ok false
  | Raise e => Raise e
  end.

(** ** Vendor SDK ([pymfy.api.devices.thermostat])

    The SDK is outside the repository.  Its enumerations are taken with
    the members the adapter names; [hvac_mode] and [preset_mode] look the
    getters' results up with [dict.get], so a result outside the named
    members is possible and is kept as a separate constructor carrying the
    raw vendor value. *)

Inductive TargetMode : Type :=
  | AT_HOME | AWAY | SLEEP | MANUAL | GEOFENCING | FROST_PROTECTION
  | TargetMode_other (raw : string).

Inductive HvacState : Type :=
  | COOL | HEAT
  | HvacState_other (raw : string).

Inductive RegulationState : Type :=
  | TIMETABLE
  | RegulationState_other (raw : string).

Inductive DurationType : Type :=
  | NEXT_MODE | FURTHER_NOTICE.

#[global] Instance TargetMode_eq_dec : EqDecision TargetMode.
Proof. solve_decision. Defined.
#[global] Instance HvacState_eq_dec : EqDecision HvacState.
Proof. solve_decision. Defined.
#[global] Instance RegulationState_eq_dec : EqDecision RegulationState.
Proof. solve_decision. Defined.
#[global] Instance DurationType_eq_dec : EqDecision DurationType.
Proof. solve_decision. Defined.

(** The device states the getters of [Thermostat] read. *)
Record Thermostat : Type := {
  st_battery : value;
  st_ambient_temperature : value;
  st_target_temperature : value;
  st_humidity : value;
  st_hvac_state : HvacState;
  st_regulation_state : RegulationState;
  st_target_mode : TargetMode;
  st_at_home_temperature : value;
  st_away_temperature : value;
  st_night_temperature : value;
  st_frost_protection_temperature : value;
}.

Inductive getter : Type :=
  | Get_battery
  | Get_ambient_temperature
  | Get_target_temperature
  | Get_humidity
  | Get_hvac_state
  | Get_regulation_state
  | Get_target_mode
  | Get_at_home_temperature
  | Get_away_temperature
  | Get_night_temperature
  | Get_frost_protection_temperature.

(** One entry per method invoked on [self._climate]. *)
Inductive vendor_call : Type :=
  | Getter (g : getter)
  | Set_target (mode : TargetMode) (temperature : value) (duration : DurationType)
  | Cancel_target.

#[global] Instance getter_eq_dec : EqDecision getter.
Proof. solve_decision. Defined.
#[global] Instance vendor_call_eq_dec : EqDecision vendor_call.
Proof. solve_decision. Defined.

Definition is_command (c : vendor_call) : bool :=
  match c with
  | Getter _ => false
  | Set_target _ _ _ | Cancel_target => true
  end.

(** The commands among a sequence of vendor calls. *)
Definition commands (cs : list vendor_call) : list vendor_call :=
  List.filter is_command cs.

(** What a command does to the device is the vendor's business: the
    adapter is verified against every such behaviour. *)
Class VendorModel : Type := {
  vendor_set_target : TargetMode -> value -> DurationType -> Thermostat -> Thermostat;
  vendor_cancel_target : Thermostat -> Thermostat;
}.

(** ** Logging *)

Inductive log_level : Type := ERROR.

Record log_record : Type := {
  levelname : log_level;
  msg : string;
  args : list string;
}.

(** ** State threaded through the adapter *)

Record World : Type := {
  device : Thermostat;
  calls : list vendor_call;
  log : list log_record;
}.

Definition M (A : Type) : Type := World -> result A * World.

Definition ret {A} (a : A) : M A := fun w => (Ok a, w).

Definition bind {A B} (m : M A) (k : A -> M B) : M B :=
  fun w =>
    match m w with
    | (Ok a, w') => k a w'
    | (Raise e, w') => (Raise e, w')
    end.

Definition lift {A} (r : result A) : M A := fun w => (r, w).

Notation "'let*' x ':=' m 'in' k" := (bind m (fun x => k))
  (at level 10, x name, m at level 100, k at level 200).

Definition record_call (c : vendor_call) (w : World) : World :=
  {| device := device w; calls := calls w ++ [c]; log := log w |}.

Definition vendor_get {A} (g : getter) (field : Thermostat -> A) : M A :=
  fun w => (Ok (field (device w)), record_call (Getter g) w).

Definition get_battery := vendor_get Get_battery st_battery.
Definition get_ambient_temperature :=
  vendor_get Get_ambient_temperature st_ambient_temperature.
Definition get_target_temperature :=
  vendor_get Get_target_temperature st_target_temperature.
Definition get_humidity := vendor_get Get_humidity st_humidity.
Definition get_hvac_state := vendor_get Get_hvac_state st_hvac_state.
Definition get_regulation_state :=
  vendor_get Get_regulation_state st_regulation_state.
Definition get_target_mode := vendor_get Get_target_mode st_target_mode.
Definition get_at_home_temperature :=
  vendor_get Get_at_home_temperature st_at_home_temperature.
Definition get_away_temperature :=
  vendor_get Get_away_temperature st_away_temperature.
Definition get_night_temperature :=
  vendor_get Get_night_temperature st_night_temperature.
Definition get_frost_protection_temperature :=
  vendor_get Get_frost_protection_temperature st_frost_protection_temperature.

Definition set_target `{VendorModel} (mode : TargetMode) (temperature : value)
    (duration : DurationType) : M unit :=
  fun w =>
    (Ok tt,
     {| device := vendor_set_target mode temperature duration (device w);
        calls := calls w ++ [Set_target mode temperature duration];
        log := log w |}).

Definition cancel_target `{VendorModel} : M unit :=
  fun w =>
    (Ok tt,
     {| device := vendor_cancel_target (device w);
        calls := calls w ++ [Cancel_target];
        log := log w |}).

(** [_LOGGER.error(msg, arg)] *)
Definition logger_error (m : string) (arg : string) : M unit :=
  fun w =>
    (Ok tt,
     {| device := device w;
        calls := calls w;
        log := log w ++ [{| levelname := ERROR; msg := m; args := [arg] |}] |}).

(** A computation is read-only when all it does to the world is append
    getter calls: the device and the log stay as they are and no command
    is issued. *)
Definition read_only {A} (m : M A) : Prop :=
  forall w, exists gs : list getter,
    snd (m w) =
      {| device := device w; calls := calls w ++ map Getter gs; log := log w |}.

(** ** Python dictionaries with insertion order

    [PRESETS_MAPPING] is iterated ([.items()], [.values()]), so it is kept as
    the list of its items in insertion order. *)

Definition dict (K V : Type) : Type := list (K * V).

Fixpoint dict_get {K V} `{EqDecision K} (d : dict K V) (k : K) : option V :=
  match d with
  | [] => None
  | (k', v) :: d' => if decide (k' = k) then Some v else dict_get d' k
  end.

Definition dict_items {K V} (d : dict K V) : list (K * V) := d.
Definition dict_keys {K V} (d : dict K V) : list K := map fst d.
Definition dict_values {K V} (d : dict K V) : list V := map snd d.

(** The dict comprehension [{v: k for k, v in d.items()}]: the items are
    visited in order and each one stores its key under its value, a later
    item silently replacing an earlier one with the same value. *)
Definition reverse_mapping {K V} `{Countable V} (d : dict K V) : gmap V K :=
  foldl (fun acc kv => <[snd kv := fst kv]> acc) ∅ (dict_items d).

(** [d[k]], raising [KeyError] on a missing key. *)
Definition getitem {V} (d : gmap string V) (k : string) : M V :=
  lift (match d !! k with
        | Some v => Ok v
        | None => Raise (KeyError k)
        end).

(** ** Constants of the host platform

    [homeassistant.components.climate.const] and [homeassistant.const] are
    not part of the sources at hand; the constants imported from them are
    parameters of the development. *)
Class ClimateConst : Type := {
  CURRENT_HVAC_COOL : string;
  CURRENT_HVAC_HEAT : string;
  CURRENT_HVAC_IDLE : string;
  HVAC_MODE_AUTO : string;
  HVAC_MODE_COOL : string;
  HVAC_MODE_HEAT : string;
  PRESET_AWAY : string;
  PRESET_HOME : string;
  PRESET_SLEEP : string;
  SUPPORT_PRESET_MODE : Z;
  SUPPORT_TARGET_TEMPERATURE : Z;
  ATTR_BATTERY_LEVEL : string;
  ATTR_TEMPERATURE : string;
  TEMP_CELSIUS : string;
}.

(** ** climate.py *)

Definition PRESET_FROST_GUARD : string := "Frost Guard".
Definition PRESET_GEOFENCING : string := "Geofencing".
Definition PRESET_MANUAL : string := "Manual".

(** The literals [26.0] and [15.0] as binary64 values. *)
Definition float_26 : spec_float := S754_finite false 7318349394477056 (-48).
Definition float_15 : spec_float := S754_finite false 8444249301319680 (-49).

Section SomfyClimate.
Context {cc : ClimateConst} {vm : VendorModel}.

Definition PRESETS_MAPPING : dict TargetMode string :=
  [ (AT_HOME, PRESET_HOME);
    (AWAY, PRESET_AWAY);
    (SLEEP, PRESET_SLEEP);
    (MANUAL, PRESET_MANUAL);
    (GEOFENCING, PRESET_GEOFENCING);
    (FROST_PROTECTION, PRESET_FROST_GUARD) ].

Definition REVERSE_PRESET_MAPPING : gmap string TargetMode :=
  reverse_mapping PRESETS_MAPPING.

Definition HVAC_MODES_MAPPING : dict HvacState string :=
  [ (COOL, HVAC_MODE_COOL); (HEAT, HVAC_MODE_HEAT) ].

Definition supported_features : M Z :=
  ret (Z.lor SUPPORT_TARGET_TEMPERATURE SUPPORT_PRESET_MODE).

Definition device_state_attributes : M (gmap string value) :=
  let* b := get_battery in
  ret {[ ATTR_BATTERY_LEVEL := b ]}.

Definition temperature_unit : M string := ret TEMP_CELSIUS.

Definition current_temperature : M value := get_ambient_temperature.

Definition target_temperature : M value := get_target_temperature.

Definition set_temperature (kwargs : gmap string value) : M unit :=
  let temperature := default PyNone (kwargs !! ATTR_TEMPERATURE) in
  if is_None temperature then ret tt
  else set_target MANUAL temperature NEXT_MODE.

Definition max_temp : M value := ret (PyFloat float_26).

Definition min_temp : M value := ret (PyFloat float_15).

Definition current_humidity : M value := get_humidity.

Definition hvac_mode : M (option string) :=
  let* regulation := get_regulation_state in
  if decide (regulation = TIMETABLE) then ret (Some HVAC_MODE_AUTO)
  else
    let* state := get_hvac_state in
    ret (dict_get HVAC_MODES_MAPPING state).

Definition hvac_modes : M (list (option string)) :=
  let* state := get_hvac_state in
  let hvac_state := dict_get HVAC_MODES_MAPPING state in
  ret [Some HVAC_MODE_AUTO; hvac_state].

Definition set_hvac_mode (mode : string) : M unit :=
  let* current := hvac_mode in
  if decide (Some mode = current) then ret tt
  else if decide (mode = HVAC_MODE_AUTO) then cancel_target
  else
    let* temperature := target_temperature in
    set_target MANUAL temperature FURTHER_NOTICE.

Definition hvac_action : M string :=
  let* missing :=
    (let* current := current_temperature in
     if negb (truthy current) then ret true
     else
       let* target := target_temperature in
       ret (negb (truthy target))) in
  if missing then ret CURRENT_HVAC_IDLE
  else
    let* heating :=
      (let* mode := hvac_mode in
       if decide (mode = Some HVAC_MODE_HEAT) then
         let* current := current_temperature in
         let* target := target_temperature in
         lift (py_lt current target)
       else ret false) in
    if heating then ret CURRENT_HVAC_HEAT
    else
      let* cooling :=
        (let* mode := hvac_mode in
         if decide (mode = Some HVAC_MODE_COOL) then
           let* current := current_temperature in
           let* target := target_temperature in
           lift (py_gt current target)
         else ret false) in
      if cooling then ret CURRENT_HVAC_COOL
      else ret CURRENT_HVAC_IDLE.

Definition preset_mode : M (option string) :=
  let* mode := get_target_mode in
  ret (dict_get PRESETS_MAPPING mode).

Definition preset_modes : M (list string) :=
  ret (dict_values PRESETS_MAPPING).

Definition set_preset_mode (preset : string) : M unit :=
  let* active := preset_mode in
  if decide (active = Some preset) then ret tt
  else
    let send temperature :=
      let* mode := getitem REVERSE_PRESET_MAPPING preset in
      set_target mode temperature NEXT_MODE in
    if decide (preset = PRESET_HOME) then
      let* temperature := get_at_home_temperature in send temperature
    else if decide (preset = PRESET_AWAY) then
      let* temperature := get_away_temperature in send temperature
    else if decide (preset = PRESET_SLEEP) then
      let* temperature := get_night_temperature in send temperature
    else if decide (preset = PRESET_FROST_GUARD) then
      let* temperature := get_frost_protection_temperature in send temperature
    else if decide (preset ∈ [PRESET_MANUAL; PRESET_GEOFENCING]) then
      let* temperature := target_temperature in send temperature
    else
      logger_error "Preset mode not supported: %s" preset.

End SomfyClimate.

(** ** A concrete setting

    One choice of host constants and one vendor behaviour, used to run the
    adapter on examples: [set_target] stores the requested mode and
    temperature, [cancel_target] puts the device back on its timetable. *)

Definition ha_const : ClimateConst := {|
  CURRENT_HVAC_COOL := "cooling";
  CURRENT_HVAC_HEAT := "heating";
  CURRENT_HVAC_IDLE := "idle";
  HVAC_MODE_AUTO := "auto";
  HVAC_MODE_COOL := "cool";
  HVAC_MODE_HEAT := "heat";
  PRESET_AWAY := "away";
  PRESET_HOME := "home";
  PRESET_SLEEP := "sleep";
  SUPPORT_PRESET_MODE := 16;
  SUPPORT_TARGET_TEMPERATURE := 1;
  ATTR_BATTERY_LEVEL := "battery_level";
  ATTR_TEMPERATURE := "temperature";
  TEMP_CELSIUS := "C";
|}.

Definition storing_vendor : VendorModel := {|
  vendor_set_target mode temperature _ d :=
    {| st_battery := st_battery d;
       st_ambient_temperature := st_ambient_temperature d;
       st_target_temperature := temperature;
       st_humidity := st_humidity d;
       st_hvac_state := st_hvac_state d;
       st_regulation_state := RegulationState_other "derogation";
       st_target_mode := mode;
       st_at_home_temperature := st_at_home_temperature d;
       st_away_temperature := st_away_temperature d;
       st_night_temperature := st_night_temperature d;
       st_frost_protection_temperature := st_frost_protection_temperature d |};
  vendor_cancel_target d :=
    {| st_battery := st_battery d;
       st_ambient_temperature := st_ambient_temperature d;
       st_target_temperature := st_target_temperature d;
       st_humidity := st_humidity d;
       st_hvac_state := st_hvac_state d;
       st_regulation_state := TIMETABLE;
       st_target_mode := st_target_mode d;
       st_at_home_temperature := st_at_home_temperature d;
       st_away_temperature := st_away_temperature d;
       st_night_temperature := st_night_temperature d;
       st_frost_protection_temperature := st_frost_protection_temperature d |};
|}.

(** [19.5] as a binary64 value. *)
Definition float_19_5 : spec_float := S754_finite false 5488762045857792 (-48).

(** A heating thermostat in derogation: 19.5 degrees measured, 21 asked. *)
Definition heating_device : Thermostat := {|
  st_battery := PyInt 80;
  st_ambient_temperature := PyFloat float_19_5;
  st_target_temperature := PyInt 21;
  st_humidity := PyFloat float_26;
  st_hvac_state := HEAT;
  st_regulation_state := RegulationState_other "derogation";
  st_target_mode := AT_HOME;
  st_at_home_temperature := PyInt 21;
  st_away_temperature := PyInt 17;
  st_night_temperature := PyInt 18;
  st_frost_protection_temperature := PyInt 8;
|}.

Definition fresh (d : Thermostat) : World :=
  {| device := d; calls := []; log := [] |}.

(** ** devolo Home Control: sensor and button entities

    Only the test module of this integration is among the sources; the
    entities it exercises are modelled from the specification. *)

Module Devolo.

Inductive entity_state : Type := STATE_ON | STATE_OFF | STATE_UNAVAILABLE.

Inductive kind : Type := BinarySensor | RemoteButton.

(** What a device exposes: one element per entity it gives rise to (the
    door contact, the overload indicator, button 1 of a remote). *)
Record element : Type := {
  element_uid : string;
  element_kind : kind;
}.

(** Modelled from the spec: the mock device of the test suite, which is
    not among the sources.  It "holds an identifier, a status code (0 =
    online/off, 1 = offline)"; the identifier is its key in
    [gateway.devices].  A device that is "explicitly configured out" is
    [disabled]. *)
Record mock_device : Type := {
  status : Z;
  disabled : bool;
  elements : list element;
}.

Record entity : Type := {
  entity_device : string;
  entity_element : string;
  entity_kind : kind;
  is_on : bool;
}.

Inductive payload : Type :=
  | PBool (b : bool)
  | PInt (z : Z).

(** The tuples handed to [publisher.dispatch]: [(element, payload)] and
    [("Status", False, "status")]. *)
Inductive message : Type :=
  | Report (element : string) (p : payload)
  | StatusChanged.

Inductive publisher_call : Type :=
  | Register (device : string) (element : string)
  | Unregister (device : string) (element : string).

Record hub : Type := {
  devices : gmap string mock_device;
  entities : list entity;
  publisher_calls : list publisher_call;
}.

(** Modelled from the spec: the state rule of the entity classes, which
    are not among the sources.  "An out-of-band status code of 1 forces
    the entity into an unavailable state regardless of the last reported
    boolean value; status 0 enables normal on/off reporting."  The
    specification gives no rule for other codes. *)
Definition state_of (status_code : Z) (on : bool) : option entity_state :=
  if status_code =? 1 then Some STATE_UNAVAILABLE
  else if status_code =? 0 then Some (if on then STATE_ON else STATE_OFF)
  else None.

(** [hass.states.get(entity).state] *)
Definition state (h : hub) (e : entity) : option entity_state :=
  match devices h !! entity_device e with
  | Some d => state_of (status d) (is_on e)
  | None => None
  end.

(** Modelled from the spec: how an entity takes a reported payload, from
    the entity classes that are not among the sources.  A sensor keeps
    the reported boolean; a button "toggles on when receiving a non-zero
    payload and off when receiving a zero payload". *)
Definition payload_on (p : payload) : bool :=
  match p with
  | PBool b => b
  | PInt z => negb (z =? 0)
  end.

Definition receive (m : message) (e : entity) : entity :=
  match m with
  | Report el p =>
      if decide (el = entity_element e) then
        {| entity_device := entity_device e;
           entity_element := entity_element e;
           entity_kind := entity_kind e;
           is_on := payload_on p |}
      else e
  | StatusChanged => e
  end.

(** Modelled from the spec: the publish/subscribe channel of the vendor
    client, not among the sources, "keyed by device identifier": a
    message dispatched for a device reaches the entities of that
    device. *)
Definition dispatch (device : string) (m : message) (h : hub) : hub :=
  {| devices := devices h;
     entities :=
       map (fun e => if decide (entity_device e = device) then receive m e else e)
           (entities h);
     publisher_calls := publisher_calls h |}.

(** [gateway.devices[device].status = code] *)
Definition set_status (device : string) (code : Z) (h : hub) : hub :=
  {| devices :=
       alter (fun d => {| status := code; disabled := disabled d;
                          elements := elements d |}) device (devices h);
     entities := entities h;
     publisher_calls := publisher_calls h |}.

(** Modelled from the spec: platform setup, from the integration code
    that is not among the sources.  Every element of every device gives
    one entity, except that "disabled devices must produce no entity at
    all"; every entity starts off and subscribes to the notification
    channel of its device. *)
Definition entities_of (uid : string) (d : mock_device) : list entity :=
  if disabled d then []
  else map (fun el => {| entity_device := uid;
                         entity_element := element_uid el;
                         entity_kind := element_kind el;
                         is_on := false |}) (elements d).

Definition subscribe (e : entity) : publisher_call :=
  Register (entity_device e) (entity_element e).

Definition setup (devs : gmap string mock_device) : hub :=
  let es := concat (map (fun ud => entities_of (fst ud) (snd ud)) (map_to_list devs)) in
  {| devices := devs;
     entities := es;
     publisher_calls := map subscribe es |}.

(** Modelled from the spec: integration removal, from the integration
    code that is not among the sources.  "On integration removal, every
    entity must deregister its subscription to the device notification
    channel exactly once." *)
Definition unsubscribe (e : entity) : publisher_call :=
  Unregister (entity_device e) (entity_element e).

Definition remove (h : hub) : hub :=
  {| devices := devices h;
     entities := [];
     publisher_calls := publisher_calls h ++ map unsubscribe (entities h) |}.

Definition is_unregister (c : publisher_call) : bool :=
  match c with Unregister _ _ => true | Register _ _ => false end.

(** [publisher.unregister.call_count] *)
Definition unregister_call_count (h : hub) : nat :=
  length (List.filter is_unregister (publisher_calls h)).

Definition registered_device (c : publisher_call) : option string :=
  match c with Register d _ => Some d | Unregister _ _ => None end.

(** The devices that registered a subscription. *)
Definition registered_devices (h : hub) : gset string :=
  list_to_set (omap registered_device (publisher_calls h)).

(** The number of subscriptions registered. *)
Definition register_call_count (h : hub) : nat :=
  length (omap registered_device (publisher_calls h)).

(** Gateways to run the model on: a door contact, a remote with two
    buttons, and a gateway with a door contact and an overload
    indicator on two devices. *)
Definition door : mock_device :=
  {| status := 0; disabled := false;
     elements := [{| element_uid := "Test"; element_kind := BinarySensor |}] |}.

Definition overload : mock_device :=
  {| status := 0; disabled := false;
     elements := [{| element_uid := "Overload"; element_kind := BinarySensor |}] |}.

Definition remote : mock_device :=
  {| status := 0; disabled := false;
     elements := [{| element_uid := "Test"; element_kind := RemoteButton |};
                  {| element_uid := "Test2"; element_kind := RemoteButton |}] |}.

Definition sensor_gateway : gmap string mock_device :=
  {[ "Test" := door; "Overload" := overload ]}.

Definition remote_gateway : gmap string mock_device :=
  {[ "Test" := remote ]}.

End Devolo.

(** ** climate.py: platform setup

    [get_thermostats], the body of [async_setup_entry], picks the devices of
    the coordinator that belong to a supported category and wraps each one
    in a [SomfyClimate].  The keys [DOMAIN], [COORDINATOR] and [API] come
    from the integration's [const] module and the category name from the
    vendor SDK; neither is among the sources, so they are parameters. *)
Class SetupConst : Type := {
  DOMAIN : string;
  COORDINATOR : string;
  API : string;
  Category_HVAC_value : string;
}.

(** A device as the coordinator holds it; only its categories are read. *)
Record SomfyDevice : Type := {
  categories : list string;
}.

(** [coordinator.data], iterated with [.items()]. *)
Record Coordinator : Type := {
  data : dict string SomfyDevice;
}.

(** [hass.data[DOMAIN]]: a dict read under the two keys [COORDINATOR] and
    [API]; [None] stands for an absent key. *)
Record domain_data : Type := {
  domain_coordinator : option Coordinator;
  domain_api : option string;
}.

(** What [SomfyClimate(coordinator, device_id, api)] is built from. *)
Record SomfyClimate : Type := {
  climate_coordinator : Coordinator;
  climate_device_id : string;
  climate_api : string;
}.

Definition SUPPORTED_CATEGORIES `{SetupConst} : gset string :=
  {[ Category_HVAC_value ]}.

(** [SUPPORTED_CATEGORIES & set(device.categories)] as a condition: the
    intersection is truthy when it is not empty. *)
Definition supported `{SetupConst} (device : SomfyDevice) : bool :=
  bool_decide (SUPPORTED_CATEGORIES ∩ list_to_set (categories device) ≠ ∅).

Definition get_thermostats `{SetupConst} (hass_data : gmap string domain_data)
    : result (list SomfyClimate) :=
  match hass_data !! DOMAIN with
  | None => Raise (KeyError DOMAIN)
  | Some domain =>
      match domain_coordinator domain with
      | None => Raise (KeyError COORDINATOR)
      | Some coordinator =>
          match domain_api domain with
          | None => Raise (KeyError API)
          | Some api =>
              Ok (map (fun item =>
                         {| climate_coordinator := coordinator;
                            climate_device_id := fst item;
                            climate_api := api |})
                      (List.filter (fun item => supported (snd item))
                                   (dict_items (data coordinator))))
          end
      end
  end.

(** A setting to run [get_thermostats] in. *)
Definition setup_const : SetupConst := {|
  DOMAIN := "somfy";
  COORDINATOR := "coordinator";
  API := "api";
  Category_HVAC_value := "hvac";
|}.

Definition house : Coordinator := {|
  data := [ ("blind", {| categories := ["roller_shutter"] |});
            ("thermostat", {| categories := ["sensor"; "hvac"] |});
            ("bare", {| categories := [] |}) ];
|}.

(** * Properties *)

(** ** Python values *)

Lemma truthy_false_iff (v : value) : truthy v = false <-> zero_or_missing v.
Proof.
  unfold zero_or_missing. split.
  - destruct v as [|z|f]; simpl; intros Hv.
    + by left.
    + right; left. apply negb_false_iff, Z.eqb_eq in Hv. by subst.
    + right; right. destruct f; try discriminate. by eexists.
  - intros [-> | [-> | [s ->]]]; reflexivity.
Qed.

Lemma truthy_number (v : value) : truthy v = true -> is_Some (number_of v).
Proof. destruct v; simpl; [discriminate | eauto | eauto]. Qed.

(** Ordering two truthy values never raises. *)
Lemma py_compare_truthy (a b : value) :
  truthy a = true -> truthy b = true ->
  exists c, py_compare a b = Ok c.
Proof.
  intros [x Hx]%truthy_number [y Hy]%truthy_number.
  unfold py_compare. rewrite Hx, Hy. eauto.
Qed.

Lemma py_lt_gt_exclusive (a b : value) :
  py_lt a b = Ok true -> py_gt a b = Ok true -> False.
Proof.
  unfold py_lt, py_gt.
  destruct (py_compare a b) as [[[]|]|]; discriminate.
Qed.

Example float_26_is_26 : py_compare (PyFloat float_26) (PyInt 26) = Ok (Some Eq).
Proof. reflexivity. Qed.

Example float_15_is_15 : py_compare (PyInt 15) (PyFloat float_15) = Ok (Some Eq).
Proof. reflexivity. Qed.

Example float_19_5_below_21 : py_lt (PyFloat float_19_5) (PyInt 21) = Ok true.
Proof. reflexivity. Qed.

Example nan_is_unordered :
  py_lt (PyFloat S754_nan) (PyInt 21) = Ok false /\
  py_gt (PyFloat S754_nan) (PyInt 21) = Ok false.
Proof. split; reflexivity. Qed.

Example None_is_not_ordered : py_lt PyNone (PyInt 21) = Raise TypeError.
Proof. reflexivity. Qed.

(** ** Dictionaries *)

Section Dict.
Context {K V : Type} `{EqDecision K}.

Lemma dict_get_Some_elem (d : dict K V) (k : K) (v : V) :
  dict_get d k = Some v -> (k, v) ∈ d.
Proof.
  induction d as [|[k' v'] d IH]; simpl; [discriminate|].
  case_decide as Hk.
  - intros [= ->]. subst. left.
  - intros Hd. right. auto.
Qed.

Lemma dict_get_Some_value (d : dict K V) (k : K) (v : V) :
  dict_get d k = Some v -> v ∈ dict_values d.
Proof.
  intros Hd%dict_get_Some_elem. unfold dict_values.
  apply list_elem_of_fmap. by exists (k, v).
Qed.

Lemma dict_get_unique_key (d : dict K V) (k : K) (v : V) :
  NoDup (dict_keys d) -> (k, v) ∈ d -> dict_get d k = Some v.
Proof.
  induction d as [|[k' v'] d IH]; simpl.
  - intros _ Hin. by apply elem_of_nil in Hin.
  - intros [Hk' Hnd]%NoDup_cons [Heq | Hin]%elem_of_cons.
    + injection Heq as -> ->. by rewrite decide_True.
    + rewrite decide_False; [by apply IH|].
      intros ->. apply Hk'. unfold dict_keys.
      apply list_elem_of_fmap. by exists (k, v).
Qed.

Context `{Countable V}.

(** A looked-up entry of the reversed table comes from an item. *)
Lemma reverse_mapping_sound (d : dict K V) (k : K) (v : V) :
  reverse_mapping d !! v = Some k -> (k, v) ∈ d.
Proof.
  unfold reverse_mapping, dict_items.
  induction d as [|[k' v'] d IH] using rev_ind; simpl.
  - by rewrite lookup_empty.
  - rewrite foldl_app. simpl. rewrite lookup_insert.
    case_decide as Hv.
    + intros [= ->]. subst. apply elem_of_app. right. left.
    + intros Hd. apply elem_of_app. left. auto.
Qed.

(** Every value of the table is a key of the reversed one. *)
Lemma reverse_mapping_complete (d : dict K V) (v : V) :
  v ∈ dict_values d -> is_Some (reverse_mapping d !! v).
Proof.
  unfold reverse_mapping, dict_items, dict_values.
  induction d as [|[k' v'] d IH] using rev_ind; simpl.
  - intros Hin. by apply elem_of_nil in Hin.
  - rewrite map_app, foldl_app. simpl. rewrite lookup_insert.
    case_decide as Hv; [eauto|].
    intros [Hin | Hin]%elem_of_app; [auto|].
    apply list_elem_of_singleton in Hin. congruence.
Qed.

(** With pairwise distinct values the reversed table inverts the table. *)
Lemma reverse_mapping_inverse (d : dict K V) (k : K) (v : V) :
  NoDup (dict_values d) -> (k, v) ∈ d -> reverse_mapping d !! v = Some k.
Proof.
  intros Hnd Hin.
  destruct (reverse_mapping_complete d v) as [k' Hk'].
  { unfold dict_values. apply list_elem_of_fmap. by exists (k, v). }
  rewrite Hk'. f_equal.
  apply reverse_mapping_sound in Hk'.
  clear -Hnd Hin Hk'. unfold dict_values in Hnd.
  induction d as [|[k0 v0] d IH]; simpl in *.
  - by apply elem_of_nil in Hin.
  - apply NoDup_cons in Hnd as [Hv0 Hnd].
    apply elem_of_cons in Hin as [Hin | Hin];
      apply elem_of_cons in Hk' as [Hk' | Hk'].
    + congruence.
    + injection Hin as -> ->. exfalso. apply Hv0.
      apply list_elem_of_fmap. by exists (k', v0).
    + injection Hk' as -> ->. exfalso. apply Hv0.
      apply list_elem_of_fmap. by exists (k, v0).
    + auto.
Qed.
End Dict.

(** ** The adapter monad *)

Lemma commands_app (cs cs' : list vendor_call) :
  commands (cs ++ cs') = commands cs ++ commands cs'.
Proof. unfold commands. apply List.filter_app. Qed.

Lemma commands_getters (gs : list getter) : commands (map Getter gs) = [].
Proof. induction gs; simpl; auto. Qed.

Lemma read_only_ret {A} (a : A) : read_only (ret a).
Proof. intros [d cs l]. exists []. simpl. by rewrite app_nil_r. Qed.

Lemma read_only_lift {A} (r : result A) : read_only (lift r).
Proof. intros [d cs l]. exists []. simpl. by rewrite app_nil_r. Qed.

Lemma read_only_vendor_get {A} (g : getter) (field : Thermostat -> A) :
  read_only (vendor_get g field).
Proof. intros w. by exists [g]. Qed.

Lemma read_only_bind {A B} (m : M A) (k : A -> M B) :
  read_only m -> (forall a, read_only (k a)) -> read_only (bind m k).
Proof.
  intros Hm Hk w. unfold bind.
  destruct (Hm w) as [gs Hgs]. destruct (m w) as [[a|e] w1]; simpl in *.
  - destruct (Hk a w1) as [gs' Hgs']. exists (gs ++ gs').
    rewrite Hgs'. subst w1. simpl. by rewrite map_app, app_assoc.
  - by exists gs.
Qed.

Lemma read_only_effect {A} (m : M A) (w : World) :
  read_only m ->
  device (snd (m w)) = device w /\
  log (snd (m w)) = log w /\
  commands (calls (snd (m w))) = commands (calls w).
Proof.
  intros Hm. destruct (Hm w) as [gs ->]. simpl.
  by rewrite commands_app, commands_getters, app_nil_r.
Qed.

Lemma read_only_getters :
  read_only get_battery /\ read_only get_ambient_temperature /\
  read_only get_target_temperature /\ read_only get_humidity /\
  read_only get_hvac_state /\ read_only get_regulation_state /\
  read_only get_target_mode.
Proof. repeat split; apply read_only_vendor_get. Qed.

Ltac read_only :=
  repeat first
    [ assumption
    | apply read_only_ret
    | apply read_only_lift
    | apply read_only_vendor_get
    | apply read_only_getters
    | match goal with |- read_only (if ?c then _ else _) => destruct c end
    | apply read_only_bind; [|intros ?] ].

(** ** climate.py *)

Section SomfyClimateFacts.
Context {cc : ClimateConst} {vm : VendorModel}.

Lemma PRESETS_MAPPING_keys_distinct : NoDup (dict_keys PRESETS_MAPPING).
Proof. compute_done. Qed.

Lemma preset_mode_result (w : World) :
  preset_mode w =
    (Ok (dict_get PRESETS_MAPPING (st_target_mode (device w))),
     record_call (Getter Get_target_mode) w).
Proof. reflexivity. Qed.

(** The active preset is always one of the table's names. *)
Lemma active_preset_recognized (w : World) (preset : string) :
  fst (preset_mode w) = Ok (Some preset) -> preset ∈ dict_values PRESETS_MAPPING.
Proof.
  rewrite preset_mode_result. cbn [fst]. intros [= Hd].
  exact (dict_get_Some_value PRESETS_MAPPING (st_target_mode (device w)) _ Hd).
Qed.

(** C1: a preset name outside the six names of the table (which can then not
    be the active preset either) makes [set_preset_mode] return normally
    after appending exactly one error record to the log; the only vendor call
    is the read of the target mode, so no command is issued, the device is
    untouched and [preset_mode] reads as before. *)
Theorem set_preset_mode_unsupported (w : World) (preset : string) :
  preset ∉ dict_values PRESETS_MAPPING ->
  fst (preset_mode w) <> Ok (Some preset) /\
  set_preset_mode preset w =
    (Ok tt,
     {| device := device w;
        calls := calls w ++ [Getter Get_target_mode];
        log := log w ++ [{| levelname := ERROR;
                            msg := "Preset mode not supported: %s";
                            args := [preset] |}] |}) /\
  commands (calls (snd (set_preset_mode preset w))) = commands (calls w) /\
  fst (preset_mode (snd (set_preset_mode preset w))) = fst (preset_mode w).
Proof.
  intros Hnot.
  assert (Hactive : fst (preset_mode w) <> Ok (Some preset)).
  { intros Hp. by apply Hnot, (active_preset_recognized w). }
  assert (Hrun : set_preset_mode preset w =
    (Ok tt,
     {| device := device w;
        calls := calls w ++ [Getter Get_target_mode];
        log := log w ++ [{| levelname := ERROR;
                            msg := "Preset mode not supported: %s";
                            args := [preset] |}] |})).
  { unfold set_preset_mode, bind. rewrite preset_mode_result in *.
    cbn [fst] in Hactive. cbv beta iota.
    rewrite decide_False by congruence.
    cbn [dict_values PRESETS_MAPPING map snd] in Hnot.
    rewrite !not_elem_of_cons in Hnot.
    destruct Hnot as (Hhome & Haway & Hsleep & Hmanual & Hgeo & Hfrost & _).
    rewrite !decide_False; [reflexivity | | done..].
    rewrite !elem_of_cons, elem_of_nil. tauto. }
  split; [done|]. split; [done|]. rewrite Hrun. simpl. split.
  - rewrite commands_app. simpl. by rewrite app_nil_r.
  - reflexivity.
Qed.

(** Every name of the table is a key of the reversed table, and the mode
    stored under it maps back to the name. *)
Lemma REVERSE_PRESET_MAPPING_lookup (preset : string) :
  preset ∈ dict_values PRESETS_MAPPING ->
  exists mode,
    REVERSE_PRESET_MAPPING !! preset = Some mode /\
    dict_get PRESETS_MAPPING mode = Some preset.
Proof.
  intros Hin.
  destruct (reverse_mapping_complete PRESETS_MAPPING preset Hin) as [mode Hm].
  exists mode. split; [done|].
  apply dict_get_unique_key; [apply PRESETS_MAPPING_keys_distinct|].
  by apply reverse_mapping_sound.
Qed.

(** A recognized preset that is not active yet ends in one [set_target]
    carrying the mode stored for it and lasting until the next mode. *)
Lemma set_preset_mode_sends (w : World) (preset : string) (mode : TargetMode) :
  fst (preset_mode w) <> Ok (Some preset) ->
  preset ∈ dict_values PRESETS_MAPPING ->
  REVERSE_PRESET_MAPPING !! preset = Some mode ->
  exists (g : getter) (temperature : value),
    set_preset_mode preset w =
      (Ok tt,
       {| device := vendor_set_target mode temperature NEXT_MODE (device w);
          calls := calls w ++ [Getter Get_target_mode] ++ [Getter g]
                     ++ [Set_target mode temperature NEXT_MODE];
          log := log w |}).
Proof.
  intros Hactive Hin Hrev.
  unfold set_preset_mode, bind. rewrite preset_mode_result in *.
  cbn [fst] in Hactive. cbv beta iota zeta.
  rewrite decide_False by congruence.
  unfold getitem, lift. rewrite Hrev.
  unfold target_temperature, get_at_home_temperature, get_away_temperature,
    get_night_temperature, get_frost_protection_temperature,
    get_target_temperature, vendor_get, set_target, record_call.
  repeat case_decide;
    try (eexists _, _; cbn; rewrite <- ?app_assoc; reflexivity).
  exfalso.
  cbn [dict_values PRESETS_MAPPING map snd] in Hin.
  rewrite !elem_of_cons, elem_of_nil in *. tauto.
Qed.

(** C2: under a vendor for which [set_target] makes [get_target_mode] return
    the mode it was given, setting any of the six preset names of the table
    returns normally and [preset_mode] then reads that name. *)
Theorem set_preset_mode_then_preset_mode (w : World) (preset : string) :
  (forall mode temperature duration d,
     st_target_mode (vendor_set_target mode temperature duration d) = mode) ->
  preset ∈ dict_values PRESETS_MAPPING ->
  fst (set_preset_mode preset w) = Ok tt /\
  fst (preset_mode (snd (set_preset_mode preset w))) = Ok (Some preset).
Proof.
  intros Hvendor Hin.
  destruct (REVERSE_PRESET_MAPPING_lookup preset Hin) as (mode & Hrev & Hget).
  destruct (decide (dict_get PRESETS_MAPPING (st_target_mode (device w))
                    = Some preset)) as [Hsame | Hother].
  - unfold set_preset_mode, bind. rewrite preset_mode_result.
    cbv beta iota. rewrite decide_True by done. cbn [fst snd ret].
    rewrite preset_mode_result. cbn [fst record_call device]. by rewrite Hsame.
  - destruct (set_preset_mode_sends w preset mode) as (g & temperature & ->);
      [rewrite preset_mode_result; cbn [fst]; congruence | done..|].
    cbn [fst snd]. split; [done|].
    rewrite preset_mode_result. cbn [fst device].
    by rewrite Hvendor, Hget.
Qed.

Lemma hvac_mode_value (w : World) :
  fst (hvac_mode w) =
    Ok (if decide (st_regulation_state (device w) = TIMETABLE)
        then Some HVAC_MODE_AUTO
        else dict_get HVAC_MODES_MAPPING (st_hvac_state (device w))).
Proof.
  unfold hvac_mode, bind, get_regulation_state, get_hvac_state, vendor_get.
  cbn. by case_decide.
Qed.

Lemma hvac_mode_device (w : World) : device (snd (hvac_mode w)) = device w.
Proof.
  unfold hvac_mode, bind, get_regulation_state, get_hvac_state, vendor_get.
  cbn. by case_decide.
Qed.

Ltac run_hvac_action :=
  unfold hvac_action, hvac_mode, bind, current_temperature, target_temperature,
    get_ambient_temperature, get_target_temperature, get_regulation_state,
    get_hvac_state, vendor_get, lift, ret, record_call;
  cbn -[dict_get].

(** Without a usable current or target temperature the action is idle;
    the mode is not even read. *)
Lemma hvac_action_missing (w : World) :
  truthy (st_ambient_temperature (device w)) = false
  \/ truthy (st_target_temperature (device w)) = false ->
  fst (hvac_action w) = Ok CURRENT_HVAC_IDLE.
Proof.
  destruct w as [d cs l]. cbn [device]. intros Hmissing. run_hvac_action.
  destruct (truthy (st_ambient_temperature d)); cbn -[dict_get]; [|done].
  destruct Hmissing as [? | ->]; done.
Qed.

(** With both temperatures usable the comparison is defined and the action
    follows the mode and the comparison. *)
Lemma hvac_action_value (w : World) (c : option comparison) :
  truthy (st_ambient_temperature (device w)) = true ->
  truthy (st_target_temperature (device w)) = true ->
  py_compare (st_ambient_temperature (device w))
             (st_target_temperature (device w)) = Ok c ->
  fst (hvac_action w) =
    Ok (if decide (fst (hvac_mode w) = Ok (Some HVAC_MODE_HEAT) /\ c = Some Lt)
        then CURRENT_HVAC_HEAT
        else if decide (fst (hvac_mode w) = Ok (Some HVAC_MODE_COOL) /\ c = Some Gt)
        then CURRENT_HVAC_COOL
        else CURRENT_HVAC_IDLE).
Proof.
  rewrite hvac_mode_value. destruct w as [d cs l]. cbn [device].
  intros Hc Ht Hcmp. run_hvac_action. unfold py_lt, py_gt.
  destruct c as [[]|];
    repeat first
      [ progress cbn -[dict_get]
      | rewrite Hc
      | rewrite Ht
      | rewrite Hcmp
      | case_decide ];
    try done;
    try solve [ destruct_and?; congruence ];
    try solve [ exfalso;
                match goal with
                | Hn : ~ (_ /\ _) |- _ => apply Hn; split; congruence
                end ].
Qed.

(** C3: [hvac_action] always returns; it is idle when the current or the
    target temperature is zero or missing; when both are present and non-zero
    it is heat exactly when the mode is heat and the current temperature is
    strictly below the target, cool exactly when the mode is cool and the
    current temperature is strictly above the target, and idle otherwise.
    The three action names of the host platform are taken to be distinct. *)
Theorem hvac_action_spec (w : World) (current target : value) :
  NoDup [CURRENT_HVAC_IDLE; CURRENT_HVAC_HEAT; CURRENT_HVAC_COOL] ->
  fst (current_temperature w) = Ok current ->
  fst (target_temperature w) = Ok target ->
  let heating :=
    fst (hvac_mode w) = Ok (Some HVAC_MODE_HEAT) /\ py_lt current target = Ok true in
  let cooling :=
    fst (hvac_mode w) = Ok (Some HVAC_MODE_COOL) /\ py_gt current target = Ok true in
  exists action,
    fst (hvac_action w) = Ok action /\
    (zero_or_missing current \/ zero_or_missing target ->
     action = CURRENT_HVAC_IDLE) /\
    (~ zero_or_missing current -> ~ zero_or_missing target ->
     (action = CURRENT_HVAC_HEAT <-> heating) /\
     (action = CURRENT_HVAC_COOL <-> cooling) /\
     (~ heating -> ~ cooling -> action = CURRENT_HVAC_IDLE)).
Proof.
  intros Hdistinct Hcurrent Htarget heating cooling.
  unfold current_temperature, target_temperature, get_ambient_temperature,
    get_target_temperature, vendor_get in Hcurrent, Htarget.
  cbn [fst] in Hcurrent, Htarget.
  injection Hcurrent as <-. injection Htarget as <-.
  apply NoDup_cons in Hdistinct as [Hidle Hdistinct].
  apply NoDup_cons in Hdistinct as [Hheat _].
  assert (Hidle_heat : CURRENT_HVAC_IDLE <> CURRENT_HVAC_HEAT)
    by (intros E; apply Hidle; rewrite E; left).
  assert (Hidle_cool : CURRENT_HVAC_IDLE <> CURRENT_HVAC_COOL)
    by (intros E; apply Hidle; rewrite E; right; left).
  assert (Hheat_cool : CURRENT_HVAC_HEAT <> CURRENT_HVAC_COOL)
    by (intros E; apply Hheat; rewrite E; left).
  clear Hidle Hheat.
  destruct (truthy (st_ambient_temperature (device w))) eqn:Hc;
    [destruct (truthy (st_target_temperature (device w))) eqn:Ht|].
  - destruct (py_compare_truthy _ _ Hc Ht) as [c Hcmp].
    exists (if decide (fst (hvac_mode w) = Ok (Some HVAC_MODE_HEAT) /\ c = Some Lt)
            then CURRENT_HVAC_HEAT
            else if decide (fst (hvac_mode w) = Ok (Some HVAC_MODE_COOL)
                            /\ c = Some Gt)
            then CURRENT_HVAC_COOL
            else CURRENT_HVAC_IDLE).
    split; [by apply hvac_action_value|]. split.
    { rewrite <- !truthy_false_iff. intros [? | ?]; congruence. }
    intros _ _. subst heating cooling. unfold py_lt, py_gt. rewrite Hcmp.
    repeat case_decide; destruct c as [[]|]; naive_solver.
  - exists CURRENT_HVAC_IDLE. split; [apply hvac_action_missing; by right|].
    split; [done|]. intros _ Htarget. exfalso. by apply Htarget, truthy_false_iff.
  - exists CURRENT_HVAC_IDLE. split; [apply hvac_action_missing; by left|].
    split; [done|]. intros Hcurrent. exfalso. by apply Hcurrent, truthy_false_iff.
Qed.

(** C4: [set_hvac_mode] returns normally; it issues no command when the
    requested mode is the current one; otherwise it issues [cancel_target]
    when the requested mode is the auto mode, and for any other mode one
    [set_target] with mode MANUAL, the current target temperature and duration
    FURTHER_NOTICE. *)
Theorem set_hvac_mode_spec (w : World) (mode : string) :
  let w' := snd (set_hvac_mode mode w) in
  fst (set_hvac_mode mode w) = Ok tt /\
  (fst (hvac_mode w) = Ok (Some mode) ->
   commands (calls w') = commands (calls w) /\ device w' = device w) /\
  (fst (hvac_mode w) <> Ok (Some mode) -> mode = HVAC_MODE_AUTO ->
   commands (calls w') = commands (calls w) ++ [Cancel_target]) /\
  (fst (hvac_mode w) <> Ok (Some mode) -> mode <> HVAC_MODE_AUTO ->
   exists temperature,
     fst (target_temperature w) = Ok temperature /\
     commands (calls w') =
       commands (calls w) ++ [Set_target MANUAL temperature FURTHER_NOTICE]).
Proof.
  rewrite hvac_mode_value. destruct w as [d cs l]. cbn [device].
  unfold set_hvac_mode, hvac_mode, bind, target_temperature, get_target_temperature,
    get_regulation_state, get_hvac_state, vendor_get, set_target, cancel_target,
    ret, record_call.
  cbn -[dict_get].
  repeat first [ progress cbn -[dict_get] | case_decide ];
    rewrite ?commands_app; cbn -[dict_get]; rewrite ?app_nil_r;
    repeat split; intros; try done; try congruence; eauto.
Qed.

(** C5: [set_temperature] returns normally; without a temperature among the
    keyword arguments it does nothing at all; with a temperature [t] its only
    vendor call is [set_target] with mode MANUAL, temperature [t] and duration
    NEXT_MODE. *)
Theorem set_temperature_spec (w : World) (kwargs : gmap string value) :
  let w' := snd (set_temperature kwargs w) in
  fst (set_temperature kwargs w) = Ok tt /\
  (kwargs !! ATTR_TEMPERATURE = None -> w' = w) /\
  (forall t, kwargs !! ATTR_TEMPERATURE = Some t -> t <> PyNone ->
   calls w' = calls w ++ [Set_target MANUAL t NEXT_MODE]).
Proof.
  unfold set_temperature.
  destruct (kwargs !! ATTR_TEMPERATURE) as [t|]; cbn [default].
  - destruct t; cbn; (split; [done|]); (split; [done|]);
      intros t' [= <-] Ht'; done.
  - cbn. by repeat split.
Qed.

(** An explicit [temperature=None] is treated like a missing one. *)
Lemma set_temperature_explicit_None (w : World) (kwargs : gmap string value) :
  kwargs !! ATTR_TEMPERATURE = Some PyNone ->
  set_temperature kwargs w = (Ok tt, w).
Proof. unfold set_temperature. by intros ->. Qed.

(** C10: each of the thirteen properties only ever appends getter calls to
    the sequence of vendor calls: none issues [set_target] or [cancel_target],
    and the device and the log are the same after the read. *)
Theorem properties_read_only :
  read_only supported_features /\
  read_only device_state_attributes /\
  read_only temperature_unit /\
  read_only current_temperature /\
  read_only target_temperature /\
  read_only max_temp /\
  read_only min_temp /\
  read_only current_humidity /\
  read_only hvac_mode /\
  read_only hvac_modes /\
  read_only hvac_action /\
  read_only preset_mode /\
  read_only preset_modes.
Proof.
  assert (Hcurrent : read_only current_temperature) by read_only.
  assert (Htarget : read_only target_temperature) by read_only.
  assert (Hmode : read_only hvac_mode) by (unfold hvac_mode; read_only).
  repeat split;
    try assumption;
    unfold supported_features, device_state_attributes, temperature_unit,
      max_temp, min_temp, current_humidity, hvac_modes, hvac_action,
      preset_mode, preset_modes;
    read_only.
Qed.

Lemma PRESETS_MAPPING_values_distinct :
  NoDup [PRESET_HOME; PRESET_AWAY; PRESET_SLEEP] ->
  (forall name, name ∈ [PRESET_HOME; PRESET_AWAY; PRESET_SLEEP] ->
                name ∉ [PRESET_MANUAL; PRESET_GEOFENCING; PRESET_FROST_GUARD]) ->
  NoDup (dict_values PRESETS_MAPPING).
Proof.
  intros Hhost Hapart.
  change (dict_values PRESETS_MAPPING)
    with ([PRESET_HOME; PRESET_AWAY; PRESET_SLEEP]
          ++ [PRESET_MANUAL; PRESET_GEOFENCING; PRESET_FROST_GUARD]).
  apply NoDup_app. split; [done|]. split; [done|]. compute_done.
Qed.

(** C6, as far as the code goes: provided the three preset names of the host
    platform are pairwise distinct and differ from the three names the module
    defines itself, [PRESETS_MAPPING] has an entry for exactly the six named
    target modes, its six names are pairwise distinct, the keys of
    [REVERSE_PRESET_MAPPING] are exactly these names, and the two tables are
    inverse to each other.  This is a property of the entries as written;
    nothing checks it when the tables are built. *)
Theorem PRESETS_MAPPING_bidirectional :
  NoDup [PRESET_HOME; PRESET_AWAY; PRESET_SLEEP] ->
  (forall name, name ∈ [PRESET_HOME; PRESET_AWAY; PRESET_SLEEP] ->
                name ∉ [PRESET_MANUAL; PRESET_GEOFENCING; PRESET_FROST_GUARD]) ->
  (forall mode,
     is_Some (dict_get PRESETS_MAPPING mode) <->
     mode ∈ [AT_HOME; AWAY; SLEEP; MANUAL; GEOFENCING; FROST_PROTECTION]) /\
  NoDup (dict_values PRESETS_MAPPING) /\
  (forall name,
     is_Some (REVERSE_PRESET_MAPPING !! name) <->
     name ∈ dict_values PRESETS_MAPPING) /\
  (forall mode name,
     dict_get PRESETS_MAPPING mode = Some name <->
     REVERSE_PRESET_MAPPING !! name = Some mode).
Proof.
  intros Hhost Hapart.
  pose proof (PRESETS_MAPPING_values_distinct Hhost Hapart) as Hvalues.
  split; [|split; [done|split]].
  - intros mode. split.
    + intros [name Hget]. apply dict_get_Some_elem in Hget.
      change [AT_HOME; AWAY; SLEEP; MANUAL; GEOFENCING; FROST_PROTECTION]
        with (dict_keys PRESETS_MAPPING).
      apply list_elem_of_fmap. by exists (mode, name).
    + rewrite !elem_of_cons, elem_of_nil.
      intros [-> | [-> | [-> | [-> | [-> | [-> | []]]]]]]; cbn; eauto.
  - intros name. split.
    + intros [mode Hrev]. apply reverse_mapping_sound in Hrev.
      apply list_elem_of_fmap. by exists (mode, name).
    + apply reverse_mapping_complete.
  - intros mode name. split.
    + intros Hget. apply reverse_mapping_inverse; [done|].
      by apply dict_get_Some_elem.
    + intros Hrev. apply dict_get_unique_key; [apply PRESETS_MAPPING_keys_distinct|].
      by apply reverse_mapping_sound.
Qed.

End SomfyClimateFacts.

(** C6 as stated fails on its last part: building the reversed table checks
    nothing.  On a table that gives two modes the same name and has no entry
    for the other modes the comprehension goes through; the later item wins
    and the first mode is no longer found under its name. *)
Lemma reverse_mapping_validates_nothing :
  let table : dict TargetMode string := [(AT_HOME, "Home"); (AWAY, "Home")] in
  ~ NoDup (dict_values table) /\
  dict_get table SLEEP = None /\
  dict_get table AT_HOME = Some "Home" /\
  reverse_mapping table !! "Home" = Some AWAY.
Proof.
  cbn zeta. split; [|by vm_compute].
  intros [Hin _]%NoDup_cons. apply Hin. left.
Qed.

(** ** devolo Home Control *)

Section DevoloFacts.
Import Devolo.

Lemma dispatch_devices (device : string) (m : message) (h : hub) :
  devices (dispatch device m h) = devices h.
Proof. reflexivity. Qed.

Lemma receive_StatusChanged (e : entity) : receive StatusChanged e = e.
Proof. reflexivity. Qed.

Lemma dispatch_StatusChanged (device : string) (h : hub) :
  entities (dispatch device StatusChanged h) = entities h.
Proof.
  unfold dispatch. cbn [entities].
  induction (entities h) as [|e es IH]; [done|].
  cbn [map]. rewrite IH. by case_decide.
Qed.

Lemma set_status_lookup (device : string) (code : Z) (h : hub) (d : mock_device) :
  devices h !! device = Some d ->
  exists d', devices (set_status device code h) !! device = Some d'
             /\ status d' = code.
Proof.
  intros Hd. unfold set_status. cbn [devices].
  rewrite lookup_alter_eq, Hd. by eexists.
Qed.

(** C7: for a sensor or button entity whose device has status code 1 the
    state is unavailable whatever was last reported; with status code 0 the
    state is on or off after the last report; in particular, once the device
    is set to status 1 and the status notification is dispatched, the entity
    is still there and reads unavailable, whether it was on or off. *)
Theorem status_1_unavailable (h : hub) (e : entity) (d : mock_device) :
  devices h !! entity_device e = Some d ->
  (status d = 1 -> state h e = Some STATE_UNAVAILABLE) /\
  (status d = 0 ->
   state h e = Some (if is_on e then STATE_ON else STATE_OFF)) /\
  (let h' := dispatch (entity_device e) StatusChanged
               (set_status (entity_device e) 1 h) in
   entities h' = entities h /\ state h' e = Some STATE_UNAVAILABLE).
Proof.
  intros Hd. unfold state. rewrite Hd. repeat split.
  - by intros ->.
  - by intros ->.
  - by rewrite dispatch_StatusChanged.
  - cbn zeta. rewrite dispatch_devices.
    destruct (set_status_lookup (entity_device e) 1 h d Hd) as (d' & -> & ->).
    reflexivity.
Qed.

(** The door contact of [test_binary_sensor]: off after setup, on after the
    report, unavailable once the device is offline. *)
Example test_binary_sensor :
  let door_entity h :=
    head (List.filter (fun e => bool_decide (entity_element e = "Test"))
            (entities h)) in
  let h0 := setup sensor_gateway in
  let h1 := dispatch "Test" (Report "Test" (PBool true)) h0 in
  let h2 := dispatch "Test" StatusChanged (set_status "Test" 1 h1) in
  (state h0 <$> door_entity h0) = Some (Some STATE_OFF) /\
  (state h1 <$> door_entity h1) = Some (Some STATE_ON) /\
  (state h2 <$> door_entity h2) = Some (Some STATE_UNAVAILABLE).
Proof. by vm_compute. Qed.

(** Button 1 of [test_remote_control]: off, pressed, released, offline. *)
Example test_remote_control :
  let button h := head (entities h) in
  let h0 := setup remote_gateway in
  let h1 := dispatch "Test" (Report "Test" (PInt 1)) h0 in
  let h2 := dispatch "Test" (Report "Test" (PInt 0)) h1 in
  let h3 := dispatch "Test" StatusChanged (set_status "Test" 1 h2) in
  (state h0 <$> button h0) = Some (Some STATE_OFF) /\
  (state h1 <$> button h1) = Some (Some STATE_ON) /\
  (state h2 <$> button h2) = Some (Some STATE_OFF) /\
  (state h3 <$> button h3) = Some (Some STATE_UNAVAILABLE).
Proof. by vm_compute. Qed.

(** [test_remove_from_hass]: two entities, two calls of [unregister]. *)
Example test_remove_from_hass :
  unregister_call_count (remove (setup sensor_gateway)) = 2%nat /\
  entities (remove (setup sensor_gateway)) = [].
Proof. by vm_compute. Qed.

Lemma unregister_calls_of_removal (es : list entity) :
  List.filter is_unregister (map subscribe es ++ map unsubscribe es)
  = map unsubscribe es.
Proof.
  rewrite List.filter_app.
  assert (Hsub : List.filter is_unregister (map subscribe es) = [])
    by (induction es as [|e es IH]; [done|]; simpl; by rewrite IH).
  assert (Hunsub : List.filter is_unregister (map unsubscribe es)
                   = map unsubscribe es)
    by (induction es as [|e es IH]; [done|]; simpl; by rewrite IH).
  by rewrite Hsub, Hunsub.
Qed.

Lemma registrations_of_removal (es : list entity) :
  omap registered_device (map subscribe es ++ map unsubscribe es)
  = map entity_device es.
Proof.
  rewrite omap_app.
  assert (Hsub : omap registered_device (map subscribe es) = map entity_device es).
  { induction es as [|e es IH]; [done|].
    cbn [map]. rewrite <- IH. reflexivity. }
  assert (Hunsub : omap registered_device (map unsubscribe es) = []).
  { clear Hsub. induction es as [|e es IH]; [done|]. exact IH. }
  by rewrite Hsub, Hunsub, app_nil_r.
Qed.

Lemma entities_of_device (uid : string) (d : mock_device) (e : entity) :
  e ∈ entities_of uid d -> entity_device e = uid.
Proof.
  unfold entities_of. destruct (disabled d); [by intros ?%elem_of_nil|].
  intros (el & -> & _)%list_elem_of_fmap. reflexivity.
Qed.

Lemma entities_of_single (uid : string) (d : mock_device) :
  (disabled d = false -> (length (elements d) <= 1)%nat) ->
  entities_of uid d = [] \/ exists e, entities_of uid d = [e].
Proof.
  unfold entities_of. destruct (disabled d); [by left|].
  intros Hlen. specialize (Hlen eq_refl).
  destruct (elements d) as [|el [|el' els]]; cbn in *; [by left| |lia].
  right. by eexists.
Qed.

Lemma entity_devices_distinct (l : list (string * mock_device)) :
  NoDup (map fst l) ->
  (forall uid d, (uid, d) ∈ l -> disabled d = false ->
                 (length (elements d) <= 1)%nat) ->
  NoDup (map entity_device
           (concat (map (fun ud => entities_of (fst ud) (snd ud)) l))).
Proof.
  induction l as [|[uid d] l IH]; cbn [map concat fst snd].
  - intros _ _. apply NoDup_nil_2.
  - intros [Huid Hnd]%NoDup_cons Hsingle. rewrite map_app.
    apply NoDup_app. split; [|split].
    + destruct (entities_of_single uid d) as [-> | [e ->]].
      * apply (Hsingle uid). left.
      * apply NoDup_nil_2.
      * apply NoDup_singleton.
    + intros x (e & -> & He)%list_elem_of_fmap (e' & Hx & He')%list_elem_of_fmap.
      apply entities_of_device in He. rewrite He in Hx.
      apply list_elem_of_In, in_concat in He' as (es & Hes & He').
      apply in_map_iff in Hes as ([uid' d'] & <- & Hin).
      apply list_elem_of_In in He', Hin.
      apply entities_of_device in He'. cbn [fst] in He'.
      apply Huid. apply list_elem_of_fmap. exists (uid', d').
      split; [cbn; congruence | done].
    + apply IH; [done|]. intros uid' d' Hin. apply (Hsingle uid'). by right.
Qed.

Lemma size_list_to_set_bound (l : list string) :
  (size (list_to_set l : gset string) <= length l)%nat /\
  (size (list_to_set l : gset string) = length l -> NoDup l).
Proof.
  induction l as [|x l [IHle IHnd]]; [split; [done | intros _; apply NoDup_nil_2]|].
  rewrite list_to_set_cons. cbn [length].
  destruct (decide (x ∈ l)) as [Hin | Hnot].
  - assert (Hsame : ({[x]} ∪ list_to_set l : gset string) = list_to_set l).
    { apply set_eq. intros y.
      rewrite elem_of_union, elem_of_singleton, elem_of_list_to_set.
      split; [intros [-> | ?]; done | by right]. }
    rewrite Hsame. split; lia.
  - rewrite size_union, size_singleton.
    + split; [lia|]. intros Hsize. apply NoDup_cons. split; [done|].
      apply IHnd. lia.
    + intros y ->%elem_of_singleton Hy. by apply elem_of_list_to_set in Hy.
Qed.

Lemma entity_devices_of (uid : string) (d : mock_device) :
  disabled d = false ->
  map entity_device (entities_of uid d) = replicate (length (elements d)) uid.
Proof.
  unfold entities_of. intros ->.
  induction (elements d) as [|el els IH]; [done|].
  cbn [map length replicate entity_device]. by rewrite <- IH.
Qed.

(** Two entities on one device show up as a repeated device identifier. *)
Lemma entity_devices_distinct_inv (l : list (string * mock_device))
    (uid : string) (d : mock_device) :
  NoDup (map entity_device
           (concat (map (fun ud => entities_of (fst ud) (snd ud)) l))) ->
  (uid, d) ∈ l -> disabled d = false -> (length (elements d) <= 1)%nat.
Proof.
  intros Hnd Hin Henabled.
  apply list_elem_of_split in Hin as (l1 & l2 & ->).
  rewrite map_app, concat_app, map_app in Hnd. cbn [map concat fst snd] in Hnd.
  rewrite map_app in Hnd.
  apply NoDup_app in Hnd as (_ & _ & Hnd).
  apply NoDup_app in Hnd as (Hnd & _ & _).
  rewrite entity_devices_of in Hnd by done.
  destruct (length (elements d)) as [|[|n]]; [lia | lia |].
  exfalso. cbn [replicate] in Hnd.
  apply NoDup_cons in Hnd as [Hnot _]. apply Hnot. left.
Qed.

(** C8, as far as the model goes: on removal every entity deregisters its own
    subscription exactly once, so the number of [unregister] calls is the
    number of entities, which is the number of subscriptions registered at
    setup; it is the number of distinct devices that registered if and only
    if no device that is set up carries more than one entity. *)
Theorem remove_unregisters_each_entity_once (devs : gmap string mock_device) :
  let h := remove (setup devs) in
  List.filter is_unregister (publisher_calls h)
  = map unsubscribe (entities (setup devs)) /\
  unregister_call_count h = length (entities (setup devs)) /\
  unregister_call_count h = register_call_count h /\
  (unregister_call_count h = size (registered_devices h) <->
   (forall uid d, devs !! uid = Some d -> disabled d = false ->
                  (length (elements d) <= 1)%nat)).
Proof.
  cbn zeta. unfold unregister_call_count, register_call_count, registered_devices.
  unfold remove, setup. cbn [publisher_calls entities].
  rewrite unregister_calls_of_removal, registrations_of_removal.
  rewrite !length_map. repeat split.
  - intros Hsize uid d Hd Henabled.
    apply (entity_devices_distinct_inv (map_to_list devs) uid d);
      [|by apply elem_of_map_to_list | done].
    apply size_list_to_set_bound. by rewrite length_map.
  - intros Hsingle. rewrite size_list_to_set; [by rewrite length_map|].
    apply entity_devices_distinct; [apply NoDup_fst_map_to_list|].
    intros uid d Hin%elem_of_map_to_list. by apply (Hsingle uid).
Qed.

(** C8 as stated fails: a remote control with two buttons is one device
    with two entities; removal calls [unregister] twice, while one device
    registered. *)
Lemma remote_unregisters_per_button :
  unregister_call_count (remove (setup remote_gateway)) = 2%nat /\
  size (registered_devices (setup remote_gateway)) = 1%nat.
Proof. by vm_compute. Qed.

End DevoloFacts.

(** ** climate.py: further behaviour of the adapter *)

Section SomfyClimateMore.
Context {cc : ClimateConst} {vm : VendorModel}.

Ltac run_adapter :=
  unfold set_hvac_mode, hvac_action, hvac_mode, bind, current_temperature,
    target_temperature, get_ambient_temperature, get_target_temperature,
    get_regulation_state, get_hvac_state, vendor_get, set_target, cancel_target,
    lift, ret, record_call;
  cbn -[dict_get].

(** The three ways [set_preset_mode] can go. *)
Lemma set_preset_mode_cases (w : World) (preset : string) :
  (fst (preset_mode w) = Ok (Some preset) /\
   set_preset_mode preset w = (Ok tt, record_call (Getter Get_target_mode) w))
  \/
  (fst (preset_mode w) <> Ok (Some preset) /\
   exists (mode : TargetMode) (g : getter) (temperature : value),
     REVERSE_PRESET_MAPPING !! preset = Some mode /\
     dict_get PRESETS_MAPPING mode = Some preset /\
     set_preset_mode preset w =
       (Ok tt,
        {| device := vendor_set_target mode temperature NEXT_MODE (device w);
           calls := calls w ++ [Getter Get_target_mode] ++ [Getter g]
                      ++ [Set_target mode temperature NEXT_MODE];
           log := log w |}))
  \/
  ((preset ∉ dict_values PRESETS_MAPPING) /\
   set_preset_mode preset w =
     (Ok tt,
      {| device := device w;
         calls := calls w ++ [Getter Get_target_mode];
         log := log w ++ [{| levelname := ERROR;
                             msg := "Preset mode not supported: %s";
                             args := [preset] |}] |})).
Proof.
  destruct (decide (dict_get PRESETS_MAPPING (st_target_mode (device w))
                    = Some preset)) as [Hsame | Hother].
  - left. rewrite preset_mode_result. cbn [fst]. split; [by rewrite Hsame|].
    unfold set_preset_mode, bind. rewrite preset_mode_result.
    cbv beta iota. by rewrite decide_True.
  - assert (Hactive : fst (preset_mode w) <> Ok (Some preset))
      by (rewrite preset_mode_result; cbn [fst]; congruence).
    destruct (decide (preset ∈ dict_values PRESETS_MAPPING)) as [Hin | Hnot].
    + right; left. split; [done|].
      destruct (REVERSE_PRESET_MAPPING_lookup preset Hin) as (mode & Hrev & Hget).
      destruct (set_preset_mode_sends w preset mode Hactive Hin Hrev)
        as (g & temperature & Hrun).
      by exists mode, g, temperature.
    + right; right. split; [done|].
      unfold set_preset_mode, bind. rewrite preset_mode_result. cbv beta iota.
      rewrite decide_False by done.
      cbn [dict_values PRESETS_MAPPING map snd] in Hnot.
      rewrite !not_elem_of_cons in Hnot.
      destruct Hnot as (Hhome & Haway & Hsleep & Hmanual & Hgeo & Hfrost & _).
      rewrite !decide_False; [reflexivity | | done..].
      rewrite !elem_of_cons, elem_of_nil. tauto.
Qed.

(** X1: whatever string it is given, [set_preset_mode] returns normally; in
    particular the subscript [REVERSE_PRESET_MAPPING[preset_mode]] never
    raises [KeyError]. *)
Theorem set_preset_mode_never_raises (w : World) (preset : string) :
  fst (set_preset_mode preset w) = Ok tt.
Proof.
  destruct (set_preset_mode_cases w preset)
    as [[_ ->] | [(_ & mode & g & t & _ & _ & ->) | [_ ->]]]; reflexivity.
Qed.

(** X2: asking for the preset that is already active does nothing beyond
    reading the target mode: no command, no log record, same device. *)
Theorem set_preset_mode_active_noop (w : World) (preset : string) :
  fst (preset_mode w) = Ok (Some preset) ->
  set_preset_mode preset w = (Ok tt, record_call (Getter Get_target_mode) w) /\
  commands (calls (snd (set_preset_mode preset w))) = commands (calls w) /\
  log (snd (set_preset_mode preset w)) = log w /\
  device (snd (set_preset_mode preset w)) = device w.
Proof.
  intros Hactive.
  destruct (set_preset_mode_cases w preset)
    as [[_ Hrun] | [(Hne & _) | [Hnot _]]].
  - rewrite Hrun. cbn [fst snd record_call calls log device].
    rewrite commands_app. cbn. by rewrite app_nil_r.
  - done.
  - exfalso. by apply Hnot, (active_preset_recognized w).
Qed.

(** X3: with the six names distinct, a recognized preset that is not active
    yet leads to exactly one command: [set_target] with the mode of that
    name, the temperature of the preset's own getter (the current target for
    Manual and Geofencing) and duration NEXT_MODE; nothing is logged. *)
Theorem set_preset_mode_command (w : World) (mode : TargetMode) (name : string) :
  NoDup [PRESET_HOME; PRESET_AWAY; PRESET_SLEEP] ->
  (forall n, n ∈ [PRESET_HOME; PRESET_AWAY; PRESET_SLEEP] ->
             n ∉ [PRESET_MANUAL; PRESET_GEOFENCING; PRESET_FROST_GUARD]) ->
  (mode, name) ∈ dict_items PRESETS_MAPPING ->
  fst (preset_mode w) <> Ok (Some name) ->
  let temperature :=
    match mode with
    | AT_HOME => st_at_home_temperature (device w)
    | AWAY => st_away_temperature (device w)
    | SLEEP => st_night_temperature (device w)
    | FROST_PROTECTION => st_frost_protection_temperature (device w)
    | _ => st_target_temperature (device w)
    end in
  commands (calls (snd (set_preset_mode name w)))
  = commands (calls w) ++ [Set_target mode temperature NEXT_MODE] /\
  log (snd (set_preset_mode name w)) = log w.
Proof.
  intros Hhost Hapart Hitem Hactive temperature.
  pose proof (PRESETS_MAPPING_values_distinct Hhost Hapart) as Hvalues.
  pose proof (reverse_mapping_inverse PRESETS_MAPPING mode name Hvalues Hitem)
    as Hrev.
  assert (Hne : dict_get PRESETS_MAPPING (st_target_mode (device w)) <> Some name)
    by (rewrite preset_mode_result in Hactive; cbn [fst] in Hactive; congruence).
  cbn [dict_values PRESETS_MAPPING map snd] in Hvalues.
  apply NoDup_cons in Hvalues as [Hhome Hvalues].
  apply NoDup_cons in Hvalues as [Haway Hvalues].
  apply NoDup_cons in Hvalues as [Hsleep Hvalues].
  apply NoDup_cons in Hvalues as [Hmanual Hvalues].
  apply NoDup_cons in Hvalues as [Hgeo _].
  rewrite !not_elem_of_cons in Hhome, Haway, Hsleep, Hmanual, Hgeo.
  unfold set_preset_mode, bind. rewrite preset_mode_result. cbv beta iota zeta.
  rewrite decide_False by done.
  change (REVERSE_PRESET_MAPPING !! name = Some mode) in Hrev.
  unfold getitem, lift. rewrite Hrev.
  unfold target_temperature, get_at_home_temperature, get_away_temperature,
    get_night_temperature, get_frost_protection_temperature,
    get_target_temperature, vendor_get, set_target, record_call.
  subst temperature.
  unfold dict_items, PRESETS_MAPPING in Hitem.
  rewrite !elem_of_cons, elem_of_nil in Hitem.
  destruct Hitem as [[= -> ->] | [[= -> ->] | [[= -> ->] | [[= -> ->]
                   | [[= -> ->] | [[= -> ->] | []]]]]]];
    repeat case_decide;
    cbn [fst snd calls log device];
    rewrite ?commands_app; cbn [commands List.filter is_command app];
    rewrite ?app_nil_r;
    first [ done
          | exfalso; rewrite ?elem_of_cons, ?elem_of_nil in *; naive_solver ].
Qed.

(** X4: under a vendor for which [set_target] makes [get_target_mode] return
    the mode it was given, setting the same recognized preset a second time
    is a no-op: the second call issues no command and leaves the device and
    the log alone. *)
Theorem set_preset_mode_idempotent (w : World) (preset : string) :
  (forall mode temperature duration d,
     st_target_mode (vendor_set_target mode temperature duration d) = mode) ->
  preset ∈ dict_values PRESETS_MAPPING ->
  let w1 := snd (set_preset_mode preset w) in
  let w2 := snd (set_preset_mode preset w1) in
  commands (calls w2) = commands (calls w1) /\
  device w2 = device w1 /\
  log w2 = log w1.
Proof.
  intros Hvendor Hin w1 w2.
  assert (Hactive : fst (preset_mode w1) = Ok (Some preset)).
  { subst w1.
    destruct (set_preset_mode_cases w preset)
      as [[Hact ->] | [(_ & mode & g & t & _ & Hget & ->) | [Hnot _]]].
    - rewrite preset_mode_result in *. by cbn [fst snd record_call device] in *.
    - rewrite preset_mode_result. cbn [fst snd device].
      by rewrite Hvendor, Hget.
    - done. }
  subst w2.
  destruct (set_preset_mode_cases w1 preset)
    as [[_ ->] | [(Hne & _) | [Hnot _]]]; [|done..].
  cbn [snd record_call calls device log].
  rewrite commands_app. cbn. by rewrite app_nil_r.
Qed.

(** X5: under a vendor that stores the mode and the temperature of
    [set_target], after [set_temperature] with a temperature [t] the target
    temperature reads [t] and the preset reads Manual. *)
Theorem set_temperature_then_reads (w : World) (kwargs : gmap string value)
    (t : value) :
  (forall mode temperature duration d,
     st_target_mode (vendor_set_target mode temperature duration d) = mode /\
     st_target_temperature (vendor_set_target mode temperature duration d)
     = temperature) ->
  kwargs !! ATTR_TEMPERATURE = Some t ->
  t <> PyNone ->
  let w' := snd (set_temperature kwargs w) in
  fst (target_temperature w') = Ok t /\
  fst (preset_mode w') = Ok (Some PRESET_MANUAL).
Proof.
  intros Hvendor Hkw Ht w'. subst w'.
  assert (Hnone : is_None t = false) by (by destruct t).
  unfold set_temperature. cbv zeta. rewrite Hkw. cbn [default from_option id].
  rewrite Hnone.
  unfold set_target. cbn [snd]. rewrite preset_mode_result.
  unfold target_temperature, get_target_temperature, vendor_get.
  cbn [fst device].
  destruct (Hvendor MANUAL t NEXT_MODE (device w)) as [-> ->].
  split; reflexivity.
Qed.

(** X6: the mode [hvac_mode] reports is always one of the modes [hvac_modes]
    advertises. *)
Theorem hvac_mode_in_hvac_modes (w : World) :
  exists (mode : option string) (modes : list (option string)),
    fst (hvac_mode w) = Ok mode /\
    fst (hvac_modes w) = Ok modes /\
    mode ∈ modes.
Proof.
  eexists _, _. split; [apply hvac_mode_value|]. split; [reflexivity|].
  case_decide; [left | right; left].
Qed.

(** X7: an active preset is always one of the names [preset_modes] lists,
    and [preset_mode] is [None] exactly when the vendor's target mode is none
    of the six named ones. *)
Theorem preset_mode_in_preset_modes (w : World) :
  (forall preset,
     fst (preset_mode w) = Ok (Some preset) ->
     exists presets, fst (preset_modes w) = Ok presets /\ preset ∈ presets) /\
  (fst (preset_mode w) = Ok None <->
   exists raw, st_target_mode (device w) = TargetMode_other raw).
Proof.
  split.
  - intros preset Hactive. eexists. split; [reflexivity|].
    by apply (active_preset_recognized w).
  - rewrite preset_mode_result. cbn [fst].
    destruct (st_target_mode (device w)); cbn; split;
      try discriminate; try (intros [raw' [=]]); eauto.
Qed.

(** X8: on a device that follows its timetable the reported action is idle
    whatever the temperatures are, provided the host's name for the auto mode
    is neither its name for heat nor its name for cool. *)
Theorem hvac_action_idle_on_timetable (w : World) :
  HVAC_MODE_AUTO <> HVAC_MODE_HEAT ->
  HVAC_MODE_AUTO <> HVAC_MODE_COOL ->
  st_regulation_state (device w) = TIMETABLE ->
  fst (hvac_action w) = Ok CURRENT_HVAC_IDLE.
Proof.
  intros Hheat Hcool Htimetable.
  assert (Hmode : fst (hvac_mode w) = Ok (Some HVAC_MODE_AUTO))
    by (rewrite hvac_mode_value; by rewrite decide_True).
  destruct (truthy (st_ambient_temperature (device w))) eqn:Hc;
    [destruct (truthy (st_target_temperature (device w))) eqn:Ht|].
  - destruct (py_compare_truthy _ _ Hc Ht) as [c Hcmp].
    rewrite (hvac_action_value w c Hc Ht Hcmp), Hmode.
    rewrite !decide_False; [done | |]; intros [[=] _]; congruence.
  - apply hvac_action_missing. by right.
  - apply hvac_action_missing. by left.
Qed.

(** X9: [hvac_action] stops reading as soon as it can: with the current
    temperature zero or missing its only vendor call is the read of the
    ambient temperature; with a usable current temperature and the target
    zero or missing it reads these two and nothing else. *)
Theorem hvac_action_short_circuit (w : World) :
  (zero_or_missing (st_ambient_temperature (device w)) ->
   snd (hvac_action w) = record_call (Getter Get_ambient_temperature) w) /\
  (~ zero_or_missing (st_ambient_temperature (device w)) ->
   zero_or_missing (st_target_temperature (device w)) ->
   snd (hvac_action w) =
     record_call (Getter Get_target_temperature)
       (record_call (Getter Get_ambient_temperature) w)).
Proof.
  rewrite <- !truthy_false_iff. destruct w as [d cs l]. cbn [device].
  split.
  - intros Hc. run_adapter. by rewrite Hc.
  - intros Hc%not_false_is_true Ht. run_adapter. rewrite Hc.
    cbn -[dict_get]. by rewrite Ht.
Qed.

(** X10: for a request that is not the auto mode and not the current mode,
    what [set_hvac_mode] does is the same whichever mode was asked for: the
    requested mode itself is never passed on to the device. *)
Theorem set_hvac_mode_ignores_requested_mode (w : World) (mode1 mode2 : string) :
  mode1 <> HVAC_MODE_AUTO -> mode2 <> HVAC_MODE_AUTO ->
  fst (hvac_mode w) <> Ok (Some mode1) ->
  fst (hvac_mode w) <> Ok (Some mode2) ->
  set_hvac_mode mode1 w = set_hvac_mode mode2 w.
Proof.
  rewrite hvac_mode_value. destruct w as [d cs l]. cbn [device].
  intros Hauto1 Hauto2 Hcur1 Hcur2.
  unfold set_hvac_mode, hvac_mode, bind, target_temperature, get_target_temperature,
    get_regulation_state, get_hvac_state, vendor_get, set_target, cancel_target,
    ret, record_call.
  cbn -[dict_get].
  repeat first [ progress cbn -[dict_get] | case_decide ];
    try done; congruence.
Qed.

(** X11: under a vendor whose [cancel_target] puts the device back on its
    timetable, [hvac_mode] reads the auto mode after [set_hvac_mode] was
    asked for the auto mode. *)
Theorem set_hvac_mode_auto_then_hvac_mode (w : World) :
  (forall d, st_regulation_state (vendor_cancel_target d) = TIMETABLE) ->
  fst (hvac_mode (snd (set_hvac_mode HVAC_MODE_AUTO w)))
  = Ok (Some HVAC_MODE_AUTO).
Proof.
  intros Hvendor. rewrite hvac_mode_value.
  pose proof (hvac_mode_value w) as Hcurrent.
  destruct w as [d cs l]. cbn [device] in *.
  unfold set_hvac_mode, hvac_mode, bind, target_temperature, get_target_temperature,
    get_regulation_state, get_hvac_state, vendor_get, set_target, cancel_target,
    ret, record_call in *.
  cbn -[dict_get] in *.
  repeat first [ progress cbn -[dict_get] in * | case_decide ];
    rewrite ?Hvendor in *; try done; try congruence.
Qed.

(** X12: under a vendor that stores the mode and the temperature of
    [set_target], asking [set_hvac_mode] for a mode that is neither the auto
    mode nor the current one switches the preset to Manual and leaves the
    target temperature as it was. *)
Theorem set_hvac_mode_then_manual (w : World) (mode : string) :
  (forall m temperature duration d,
     st_target_mode (vendor_set_target m temperature duration d) = m /\
     st_target_temperature (vendor_set_target m temperature duration d)
     = temperature) ->
  mode <> HVAC_MODE_AUTO ->
  fst (hvac_mode w) <> Ok (Some mode) ->
  let w' := snd (set_hvac_mode mode w) in
  fst (preset_mode w') = Ok (Some PRESET_MANUAL) /\
  fst (target_temperature w') = fst (target_temperature w).
Proof.
  intros Hvendor Hauto Hcurrent. cbv zeta.
  rewrite hvac_mode_value in Hcurrent. destruct w as [d cs l].
  cbn [device] in Hcurrent.
  rewrite preset_mode_result.
  destruct (Hvendor MANUAL (st_target_temperature d) FURTHER_NOTICE d)
    as [Hmode Htemperature].
  unfold set_hvac_mode, hvac_mode, bind, target_temperature, get_target_temperature,
    get_regulation_state, get_hvac_state, vendor_get, set_target, cancel_target,
    ret, record_call.
  cbn -[dict_get].
  repeat first [ progress cbn -[dict_get PRESETS_MAPPING] | case_decide ];
    try congruence;
    rewrite ?Hmode, ?Htemperature; by split.
Qed.

(** X13: each of the three service methods ends in at most one vendor
    command, whatever its argument and whatever the state of the device. *)
Theorem services_issue_at_most_one_command (w : World) :
  let at_most_one (m : M unit) :=
    exists cs, commands (calls (snd (m w))) = commands (calls w) ++ cs
               /\ (length cs <= 1)%nat in
  (forall kwargs, at_most_one (set_temperature kwargs)) /\
  (forall mode, at_most_one (set_hvac_mode mode)) /\
  (forall preset, at_most_one (set_preset_mode preset)).
Proof.
  cbn zeta. split; [|split].
  - intros kwargs. unfold set_temperature, set_target, ret.
    destruct (is_None _); cbn [snd calls]; rewrite ?commands_app.
    + exists []. split; [by rewrite app_nil_r | cbn; lia].
    + eexists. split; [reflexivity | cbn; lia].
  - intros mode. destruct w as [d cs l].
    unfold set_hvac_mode, hvac_mode, bind, target_temperature,
      get_target_temperature, get_regulation_state, get_hvac_state, vendor_get,
      set_target, cancel_target, ret, record_call.
    cbn -[dict_get].
    repeat first [ progress cbn -[dict_get] | case_decide ];
      rewrite ?commands_app, <- ?app_assoc;
      (eexists; split; [reflexivity|]; cbn; lia).
  - intros preset.
    destruct (set_preset_mode_cases w preset)
      as [[_ ->] | [(_ & mode & g & t & _ & _ & ->) | [_ ->]]];
      cbn [snd record_call calls]; rewrite ?commands_app, <- ?app_assoc;
      (eexists; split; [reflexivity|]; cbn; lia).
Qed.

(** X14: the feature mask [supported_features] returns contains both the
    target-temperature flag and the preset flag, whatever their values. *)
Theorem supported_features_has_both_flags (w : World) :
  exists features,
    fst (supported_features w) = Ok features /\
    Z.land features SUPPORT_TARGET_TEMPERATURE = SUPPORT_TARGET_TEMPERATURE /\
    Z.land features SUPPORT_PRESET_MODE = SUPPORT_PRESET_MODE.
Proof.
  eexists. split; [reflexivity|].
  split; apply Z.bits_inj'; intros n _;
    rewrite Z.land_spec, Z.lor_spec;
    destruct (Z.testbit SUPPORT_TARGET_TEMPERATURE n),
             (Z.testbit SUPPORT_PRESET_MODE n); reflexivity.
Qed.

End SomfyClimateMore.

(** ** The reversed table and platform setup *)

(** X15: the comprehension that builds the reversed table keeps, for a value
    that occurs several times, the key of the last item carrying it: looking
    a value up in the reversed table is looking it up in the swapped items
    read from the end. *)
Theorem reverse_mapping_last_wins {K V : Type} `{Countable V}
    (d : dict K V) (v : V) :
  reverse_mapping d !! v
  = dict_get (rev (map (fun kv => (snd kv, fst kv)) d)) v.
Proof.
  unfold reverse_mapping, dict_items.
  induction d as [|[k v'] d IH] using rev_ind; [apply lookup_empty|].
  rewrite foldl_app, map_app, rev_app_distr. cbn [foldl map rev app fst snd dict_get].
  rewrite lookup_insert. by rewrite IH.
Qed.

Section Setup.
Context {sc : SetupConst}.

Lemma supported_iff (device : SomfyDevice) :
  supported device = true <-> Category_HVAC_value ∈ categories device.
Proof.
  unfold supported, SUPPORTED_CATEGORIES.
  rewrite bool_decide_eq_true. split.
  - intros Hne. apply set_choose_L in Hne as [x Hx].
    apply elem_of_intersection in Hx as [->%elem_of_singleton Hx].
    by apply elem_of_list_to_set in Hx.
  - intros Hin Hempty.
    assert (Hx : Category_HVAC_value
                 ∈ ({[Category_HVAC_value]} ∩ list_to_set (categories device)
                    : gset string)).
    { apply elem_of_intersection. split; [by apply elem_of_singleton|].
      by apply elem_of_list_to_set. }
    rewrite Hempty in Hx. by apply not_elem_of_empty in Hx.
Qed.

(** X16: with the integration's data in place, [get_thermostats] returns
    one entity per device of the coordinator that carries the HVAC
    category, built from this coordinator and this API client, and no other
    entity; the entities come in the order of the coordinator's devices. *)
Theorem get_thermostats_spec (hass_data : gmap string domain_data)
    (domain : domain_data) (coordinator : Coordinator) (api : string) :
  hass_data !! DOMAIN = Some domain ->
  domain_coordinator domain = Some coordinator ->
  domain_api domain = Some api ->
  exists entities,
    get_thermostats hass_data = Ok entities /\
    (forall e,
       e ∈ entities <->
       climate_coordinator e = coordinator /\
       climate_api e = api /\
       exists device,
         (climate_device_id e, device) ∈ dict_items (data coordinator) /\
         Category_HVAC_value ∈ categories device) /\
    sublist (map climate_device_id entities) (dict_keys (data coordinator)).
Proof.
  intros Hdomain Hcoordinator Hapi. unfold get_thermostats.
  rewrite Hdomain, Hcoordinator, Hapi. eexists. split; [reflexivity|].
  unfold dict_items, dict_keys. split.
  - intros e. rewrite list_elem_of_fmap. split.
    + intros ([uid device] & -> & Hin). cbn [climate_coordinator climate_api
        climate_device_id fst].
      apply list_elem_of_In, filter_In in Hin as [Hin Hsupported].
      split; [done|]. split; [done|]. exists device.
      split; [by apply list_elem_of_In | by apply supported_iff].
    + intros (Hc & Ha & device & Hin & Hcategory).
      exists (climate_device_id e, device). split.
      * destruct e. cbn in *. by subst.
      * apply list_elem_of_In, filter_In.
        split; [by apply list_elem_of_In | by apply supported_iff].
  - induction (data coordinator) as [|[uid device] items IH]; [constructor|].
    cbn [List.filter map fst snd].
    destruct (supported device); cbn [map fst climate_device_id];
      by constructor.
Qed.

End Setup.

(** ** The theorems at work

    Each statement with a premise is applied once in the concrete setting
    of [ha_const] and [storing_vendor]. *)

#[local] Existing Instance ha_const.
#[local] Existing Instance storing_vendor.

Lemma set_preset_mode_unsupported_witness :
  ("Eco" ∉ dict_values PRESETS_MAPPING) /\
  set_preset_mode "Eco" (fresh heating_device) =
    (Ok tt,
     {| device := heating_device;
        calls := [Getter Get_target_mode];
        log := [{| levelname := ERROR;
                   msg := "Preset mode not supported: %s";
                   args := ["Eco"] |}] |}).
Proof.
  assert (Hnot : "Eco" ∉ dict_values PRESETS_MAPPING) by compute_done.
  split; [exact Hnot|].
  exact (proj1 (proj2 (set_preset_mode_unsupported (fresh heating_device) "Eco" Hnot))).
Defined.

Lemma set_preset_mode_then_preset_mode_witness :
  (forall mode temperature duration d,
     st_target_mode (vendor_set_target mode temperature duration d) = mode) /\
  ("sleep" ∈ dict_values PRESETS_MAPPING) /\
  fst (preset_mode (snd (set_preset_mode "sleep" (fresh heating_device))))
  = Ok (Some "sleep").
Proof.
  assert (Hvendor : forall mode temperature duration d,
            st_target_mode (vendor_set_target mode temperature duration d) = mode)
    by (intros; reflexivity).
  assert (Hin : "sleep" ∈ dict_values PRESETS_MAPPING) by compute_done.
  split; [exact Hvendor|]. split; [exact Hin|].
  exact (proj2 (set_preset_mode_then_preset_mode (fresh heating_device) "sleep"
                  Hvendor Hin)).
Defined.

Lemma hvac_action_spec_witness :
  NoDup [CURRENT_HVAC_IDLE; CURRENT_HVAC_HEAT; CURRENT_HVAC_COOL] /\
  fst (current_temperature (fresh heating_device)) = Ok (PyFloat float_19_5) /\
  fst (target_temperature (fresh heating_device)) = Ok (PyInt 21) /\
  fst (hvac_action (fresh heating_device)) = Ok "heating".
Proof.
  assert (Hdistinct : NoDup [CURRENT_HVAC_IDLE; CURRENT_HVAC_HEAT; CURRENT_HVAC_COOL])
    by compute_done.
  split; [exact Hdistinct|]. split; [reflexivity|]. split; [reflexivity|].
  destruct (hvac_action_spec (fresh heating_device) (PyFloat float_19_5) (PyInt 21)
              Hdistinct eq_refl eq_refl) as (action & Hrun & _ & Hpresent).
  rewrite Hrun. f_equal. apply Hpresent.
  - intros [H | [H | [s H]]]; discriminate H.
  - intros [H | [H | [s H]]]; discriminate H.
  - split; reflexivity.
Defined.

Lemma set_hvac_mode_spec_witness :
  commands (calls (snd (set_hvac_mode "auto" (fresh heating_device))))
  = [Cancel_target].
Proof.
  apply (set_hvac_mode_spec (fresh heating_device) "auto").
  - discriminate.
  - reflexivity.
Defined.

Lemma set_temperature_spec_witness :
  calls (snd (set_temperature {[ "temperature" := PyInt 20 ]} (fresh heating_device)))
  = [Set_target MANUAL (PyInt 20) NEXT_MODE].
Proof.
  apply (set_temperature_spec (fresh heating_device) {[ "temperature" := PyInt 20 ]}).
  - reflexivity.
  - discriminate.
Defined.

Lemma PRESETS_MAPPING_bidirectional_witness :
  NoDup [PRESET_HOME; PRESET_AWAY; PRESET_SLEEP] /\
  (forall name, name ∈ [PRESET_HOME; PRESET_AWAY; PRESET_SLEEP] ->
                name ∉ [PRESET_MANUAL; PRESET_GEOFENCING; PRESET_FROST_GUARD]) /\
  REVERSE_PRESET_MAPPING !! "Frost Guard" = Some FROST_PROTECTION.
Proof.
  assert (Hhost : NoDup [PRESET_HOME; PRESET_AWAY; PRESET_SLEEP]) by compute_done.
  assert (Hapart : forall name, name ∈ [PRESET_HOME; PRESET_AWAY; PRESET_SLEEP] ->
             name ∉ [PRESET_MANUAL; PRESET_GEOFENCING; PRESET_FROST_GUARD]).
  { intros name Hin. rewrite !elem_of_cons, elem_of_nil in Hin.
    destruct Hin as [-> | [-> | [-> | []]]]; compute_done. }
  split; [exact Hhost|]. split; [exact Hapart|].
  apply (PRESETS_MAPPING_bidirectional Hhost Hapart). reflexivity.
Defined.

Lemma status_1_unavailable_witness :
  let h := Devolo.set_status "Test" 1
             (Devolo.dispatch "Test" (Devolo.Report "Test" (Devolo.PBool true))
                (Devolo.setup Devolo.sensor_gateway)) in
  let e := {| Devolo.entity_device := "Test"; Devolo.entity_element := "Test";
              Devolo.entity_kind := Devolo.BinarySensor; Devolo.is_on := true |} in
  let d := {| Devolo.status := 1; Devolo.disabled := false;
              Devolo.elements := Devolo.elements Devolo.door |} in
  Devolo.devices h !! Devolo.entity_device e = Some d /\
  Devolo.state h e = Some Devolo.STATE_UNAVAILABLE.
Proof.
  cbn zeta.
  split; [by vm_compute|].
  eapply status_1_unavailable; by vm_compute.
Defined.

Lemma remove_unregisters_each_entity_once_witness :
  Devolo.unregister_call_count (Devolo.remove (Devolo.setup Devolo.sensor_gateway))
  = size (Devolo.registered_devices (Devolo.remove (Devolo.setup Devolo.sensor_gateway))).
Proof.
  apply (remove_unregisters_each_entity_once Devolo.sensor_gateway).
  intros uid d. unfold Devolo.sensor_gateway.
  rewrite lookup_insert. case_decide.
  - intros [= <-] _. cbn. lia.
  - rewrite lookup_singleton. case_decide; [|discriminate].
    intros [= <-] _. cbn. lia.
Defined.

#[local] Existing Instance setup_const.

Lemma set_preset_mode_active_noop_witness :
  fst (preset_mode (fresh heating_device)) = Ok (Some "home") /\
  set_preset_mode "home" (fresh heating_device)
  = (Ok tt, record_call (Getter Get_target_mode) (fresh heating_device)).
Proof.
  split; [reflexivity|].
  exact (proj1 (set_preset_mode_active_noop (fresh heating_device) "home" eq_refl)).
Defined.

Lemma set_preset_mode_command_witness :
  NoDup [PRESET_HOME; PRESET_AWAY; PRESET_SLEEP] /\
  (forall n, n ∈ [PRESET_HOME; PRESET_AWAY; PRESET_SLEEP] ->
             n ∉ [PRESET_MANUAL; PRESET_GEOFENCING; PRESET_FROST_GUARD]) /\
  ((SLEEP, "sleep") ∈ dict_items PRESETS_MAPPING) /\
  fst (preset_mode (fresh heating_device)) <> Ok (Some "sleep") /\
  commands (calls (snd (set_preset_mode "sleep" (fresh heating_device))))
  = [Set_target SLEEP (PyInt 18) NEXT_MODE].
Proof.
  assert (Hhost : NoDup [PRESET_HOME; PRESET_AWAY; PRESET_SLEEP]) by compute_done.
  assert (Hapart : forall n, n ∈ [PRESET_HOME; PRESET_AWAY; PRESET_SLEEP] ->
             n ∉ [PRESET_MANUAL; PRESET_GEOFENCING; PRESET_FROST_GUARD]).
  { intros n Hin. rewrite !elem_of_cons, elem_of_nil in Hin.
    destruct Hin as [-> | [-> | [-> | []]]]; compute_done. }
  assert (Hitem : (SLEEP, "sleep") ∈ dict_items PRESETS_MAPPING) by compute_done.
  assert (Hactive : fst (preset_mode (fresh heating_device)) <> Ok (Some "sleep"))
    by discriminate.
  split; [exact Hhost|]. split; [exact Hapart|]. split; [exact Hitem|].
  split; [exact Hactive|].
  exact (proj1 (set_preset_mode_command (fresh heating_device) SLEEP "sleep"
                  Hhost Hapart Hitem Hactive)).
Defined.

Lemma set_preset_mode_idempotent_witness :
  (forall mode temperature duration d,
     st_target_mode (vendor_set_target mode temperature duration d) = mode) /\
  ("away" ∈ dict_values PRESETS_MAPPING) /\
  commands (calls (snd (set_preset_mode "away"
                          (snd (set_preset_mode "away" (fresh heating_device))))))
  = commands (calls (snd (set_preset_mode "away" (fresh heating_device)))).
Proof.
  assert (Hvendor : forall mode temperature duration d,
            st_target_mode (vendor_set_target mode temperature duration d) = mode)
    by (intros; reflexivity).
  assert (Hin : "away" ∈ dict_values PRESETS_MAPPING) by compute_done.
  split; [exact Hvendor|]. split; [exact Hin|].
  exact (proj1 (set_preset_mode_idempotent (fresh heating_device) "away"
                  Hvendor Hin)).
Defined.

Lemma set_temperature_then_reads_witness :
  (forall mode temperature duration d,
     st_target_mode (vendor_set_target mode temperature duration d) = mode /\
     st_target_temperature (vendor_set_target mode temperature duration d)
     = temperature) /\
  ({[ "temperature" := PyInt 0 ]} : gmap string value) !! ATTR_TEMPERATURE
  = Some (PyInt 0) /\
  PyInt 0 <> PyNone /\
  fst (target_temperature
         (snd (set_temperature {[ "temperature" := PyInt 0 ]} (fresh heating_device))))
  = Ok (PyInt 0).
Proof.
  assert (Hvendor : forall mode temperature duration d,
            st_target_mode (vendor_set_target mode temperature duration d) = mode /\
            st_target_temperature (vendor_set_target mode temperature duration d)
            = temperature)
    by (intros; split; reflexivity).
  assert (Hkw : ({[ "temperature" := PyInt 0 ]} : gmap string value)
                !! ATTR_TEMPERATURE = Some (PyInt 0)) by reflexivity.
  assert (Ht : PyInt 0 <> PyNone) by discriminate.
  split; [exact Hvendor|]. split; [exact Hkw|]. split; [exact Ht|].
  exact (proj1 (set_temperature_then_reads (fresh heating_device) _ (PyInt 0)
                  Hvendor Hkw Ht)).
Defined.

Lemma preset_mode_in_preset_modes_witness :
  fst (preset_mode (fresh heating_device)) = Ok (Some "home") /\
  exists presets,
    fst (preset_modes (fresh heating_device)) = Ok presets /\ "home" ∈ presets.
Proof.
  split; [reflexivity|].
  exact (proj1 (preset_mode_in_preset_modes (fresh heating_device)) "home" eq_refl).
Defined.

Lemma hvac_action_idle_on_timetable_witness :
  HVAC_MODE_AUTO <> HVAC_MODE_HEAT /\
  HVAC_MODE_AUTO <> HVAC_MODE_COOL /\
  st_regulation_state (device (fresh (vendor_cancel_target heating_device)))
  = TIMETABLE /\
  fst (hvac_action (fresh (vendor_cancel_target heating_device))) = Ok "idle".
Proof.
  assert (Hheat : HVAC_MODE_AUTO <> HVAC_MODE_HEAT) by discriminate.
  assert (Hcool : HVAC_MODE_AUTO <> HVAC_MODE_COOL) by discriminate.
  split; [exact Hheat|]. split; [exact Hcool|]. split; [reflexivity|].
  exact (hvac_action_idle_on_timetable (fresh (vendor_cancel_target heating_device))
           Hheat Hcool eq_refl).
Defined.

Lemma hvac_action_short_circuit_witness :
  let w := fresh (vendor_set_target MANUAL PyNone NEXT_MODE heating_device) in
  ~ zero_or_missing (st_ambient_temperature (device w)) /\
  zero_or_missing (st_target_temperature (device w)) /\
  calls (snd (hvac_action w))
  = [Getter Get_ambient_temperature; Getter Get_target_temperature].
Proof.
  cbn zeta.
  assert (Hcurrent : ~ zero_or_missing
            (st_ambient_temperature
               (device (fresh (vendor_set_target MANUAL PyNone NEXT_MODE
                                 heating_device)))))
    by (intros [H | [H | [s H]]]; discriminate H).
  assert (Htarget : zero_or_missing
            (st_target_temperature
               (device (fresh (vendor_set_target MANUAL PyNone NEXT_MODE
                                 heating_device)))))
    by (left; reflexivity).
  split; [exact Hcurrent|]. split; [exact Htarget|].
  exact (f_equal calls
           (proj2 (hvac_action_short_circuit
                     (fresh (vendor_set_target MANUAL PyNone NEXT_MODE
                               heating_device)))
                  Hcurrent Htarget)).
Defined.

Lemma set_hvac_mode_ignores_requested_mode_witness :
  "cool" <> HVAC_MODE_AUTO /\ "off" <> HVAC_MODE_AUTO /\
  fst (hvac_mode (fresh heating_device)) <> Ok (Some "cool") /\
  fst (hvac_mode (fresh heating_device)) <> Ok (Some "off") /\
  set_hvac_mode "cool" (fresh heating_device)
  = set_hvac_mode "off" (fresh heating_device).
Proof.
  assert (H1 : "cool" <> HVAC_MODE_AUTO) by discriminate.
  assert (H2 : "off" <> HVAC_MODE_AUTO) by discriminate.
  assert (H3 : fst (hvac_mode (fresh heating_device)) <> Ok (Some "cool"))
    by discriminate.
  assert (H4 : fst (hvac_mode (fresh heating_device)) <> Ok (Some "off"))
    by discriminate.
  split; [exact H1|]. split; [exact H2|]. split; [exact H3|]. split; [exact H4|].
  exact (set_hvac_mode_ignores_requested_mode (fresh heating_device)
           "cool" "off" H1 H2 H3 H4).
Defined.

Lemma set_hvac_mode_auto_then_hvac_mode_witness :
  (forall d, st_regulation_state (vendor_cancel_target d) = TIMETABLE) /\
  fst (hvac_mode (snd (set_hvac_mode HVAC_MODE_AUTO (fresh heating_device))))
  = Ok (Some "auto").
Proof.
  assert (Hvendor : forall d, st_regulation_state (vendor_cancel_target d) = TIMETABLE)
    by (intros; reflexivity).
  split; [exact Hvendor|].
  exact (set_hvac_mode_auto_then_hvac_mode (fresh heating_device) Hvendor).
Defined.

Lemma set_hvac_mode_then_manual_witness :
  (forall m temperature duration d,
     st_target_mode (vendor_set_target m temperature duration d) = m /\
     st_target_temperature (vendor_set_target m temperature duration d)
     = temperature) /\
  "cool" <> HVAC_MODE_AUTO /\
  fst (hvac_mode (fresh heating_device)) <> Ok (Some "cool") /\
  fst (preset_mode (snd (set_hvac_mode "cool" (fresh heating_device))))
  = Ok (Some "Manual").
Proof.
  assert (Hvendor : forall m temperature duration d,
            st_target_mode (vendor_set_target m temperature duration d) = m /\
            st_target_temperature (vendor_set_target m temperature duration d)
            = temperature)
    by (intros; split; reflexivity).
  assert (Hauto : "cool" <> HVAC_MODE_AUTO) by discriminate.
  assert (Hcurrent : fst (hvac_mode (fresh heating_device)) <> Ok (Some "cool"))
    by discriminate.
  split; [exact Hvendor|]. split; [exact Hauto|]. split; [exact Hcurrent|].
  exact (proj1 (set_hvac_mode_then_manual (fresh heating_device) "cool"
                  Hvendor Hauto Hcurrent)).
Defined.

Lemma get_thermostats_spec_witness :
  let domain := {| domain_coordinator := Some house; domain_api := Some "client" |} in
  let hass_data : gmap string domain_data := {[ "somfy" := domain ]} in
  hass_data !! DOMAIN = Some domain /\
  domain_coordinator domain = Some house /\
  domain_api domain = Some "client" /\
  exists entities,
    get_thermostats hass_data = Ok entities /\
    sublist (map climate_device_id entities) (dict_keys (data house)).
Proof.
  cbn zeta.
  assert (Hdomain :
            ({[ "somfy" := {| domain_coordinator := Some house;
                              domain_api := Some "client" |} ]}
             : gmap string domain_data) !! DOMAIN
            = Some {| domain_coordinator := Some house;
                      domain_api := Some "client" |})
    by reflexivity.
  split; [exact Hdomain|]. split; [reflexivity|]. split; [reflexivity|].
  destruct (get_thermostats_spec _ _ house "client" Hdomain eq_refl eq_refl)
    as (entities & Hrun & _ & Horder).
  exists entities. split; [exact Hrun | exact Horder].
Defined.
